(** * Hydraulic cycle control of AssisTea-Backend-Server, shallow embedding

    Python floats are modelled as rationals [Q] (no NaN, no rounding);
    Python dictionaries returned by the controllers are modelled as
    inductive result types that carry the fields the claims talk about;
    exceptions are modelled by a state-and-exception monad that keeps
    the state changes done before the raise, as Python does. *)

From Stdlib Require Import QArith Qabs Qround ZArith String Ascii List Bool Lia Lqa
  Sorted Morphisms Setoid.
Import ListNotations.
Open Scope Q_scope.

Definition Qltb (a b : Q) : bool := negb (Qle_bool b a).

(** ** app/config/config.py

    Every constant is read with [os.getenv] and a default, so the
    controllers are parameterised by a [Config] record; [default_config]
    holds the defaults. *)
Record Config := mkConfig {
  ADEQUATE_SOIL_MOISTURE_PERCENT : Q;
  PUMP_PRESSURE_TOLERANCE_KPA : Q;
  PUMP_ADJUSTMENT_INTERVAL_SEC : Q;
  MOISTURE_CHECK_INTERVAL_SEC : Q;
  MAX_OPERATION_DURATION_SEC : Q;
  PRESSURE_LOSS_PER_DEGREE_SLOPE_KPA : Q;
  USE_MOCK_HARDWARE : bool
}.

Definition default_config : Config := {|
  ADEQUATE_SOIL_MOISTURE_PERCENT := 60;
  PUMP_PRESSURE_TOLERANCE_KPA := 10;
  PUMP_ADJUSTMENT_INTERVAL_SEC := 2;
  MOISTURE_CHECK_INTERVAL_SEC := 10;
  MAX_OPERATION_DURATION_SEC := 3600;
  PRESSURE_LOSS_PER_DEGREE_SLOPE_KPA := 5 # 2;
  USE_MOCK_HARDWARE := false
|}.

Definition WATER_DENSITY_KG_PER_M3 : Q := 1000.
Definition GRAVITY_M_PER_S2 : Q := 981 # 100.

(** ** app/decision_engine/rule_engine.py *)
Module RuleEngine.

(** Which [decision['reason']] the code produced. *)
Inductive Reason := WeatherNotClear | MoistureAdequate | MoistureBelow | NoRule.

Record Decision := mkDecision {
  should_irrigate : bool;
  confidence : Q;
  reason : Reason
}.

(** [RuleEngine.should_irrigate] *)
Definition should_irrigate_rule (cfg : Config) (soil_moisture_percent : Q)
    (weather_condition : string) : Decision :=
  if negb (String.eqb weather_condition "clear") then
    mkDecision false 1 WeatherNotClear
  else if Qle_bool (ADEQUATE_SOIL_MOISTURE_PERCENT cfg) soil_moisture_percent then
    mkDecision false 1 MoistureAdequate
  else if Qltb soil_moisture_percent (ADEQUATE_SOIL_MOISTURE_PERCENT cfg) then
    mkDecision true 1 MoistureBelow
  else mkDecision false 0 NoRule.

(** [RuleEngine.calculate_irrigation_duration]: seconds of watering for a
    moisture deficit, assuming 1% moisture = 10 mm of water. *)
Definition calculate_irrigation_duration (current_moisture target_moisture area_m2
    flow_rate_lpm : Q) : Q :=
  let moisture_deficit := target_moisture - current_moisture in
  if Qle_bool moisture_deficit 0 then 0 else
  let water_needed_liters := moisture_deficit / 100 * area_m2 * 10 in
  if Qle_bool flow_rate_lpm 0 then 0 else
  let duration_minutes := water_needed_liters / flow_rate_lpm in
  duration_minutes * 60.

End RuleEngine.

(** ** app/decision_engine/fuzzy_engine.py *)
Module FuzzyEngine.

(** [str.lower] on ASCII text. *)
Definition lower_ascii (c : ascii) : ascii :=
  let n := nat_of_ascii c in
  if (65 <=? n)%nat && (n <=? 90)%nat then ascii_of_nat (n + 32) else c.

Fixpoint lower (s : string) : string :=
  match s with
  | EmptyString => EmptyString
  | String c s' => String (lower_ascii c) (lower s')
  end.

(** [weather_map.get(weather_condition.lower(), 1)] *)
Definition weather_value (weather_condition : string) : Q :=
  let w := lower weather_condition in
  if String.eqb w "clear" then 0
  else if String.eqb w "cloudy" then 1
  else if String.eqb w "rainy" then 2
  else 1.

(** *** The repository's rule base, as scikit-fuzzy evaluates it

    [FuzzyEngine.__init__] builds the antecedents [soil_moisture] (universe
    0..100) and [weather_condition] (universe 0..2), the consequent
    [irrigation_need] (universe 0..100), their triangular terms, and the
    three rules of [irrigation_ctrl]:
    - rule1: dry AND clear -> high,
    - rule2: moderate AND clear -> medium,
    - rule3: wet OR rainy -> low.
    [irrigation_sim.compute()] then follows scikit-fuzzy's
    [ControlSystemSimulation]:
    - each input's membership is the term's [trimf] interpolated at the
      input on the integer universe, which for the integer corners used
      here is [trimf] at the input itself;
    - AND is [fmin], OR is [fmax], and a rule's strength is the cut level
      of its consequent term;
    - the output universe is refined with the points where each term
      crosses its cut level ([interp_universe_fast]) and merged with
      [np.union1d];
    - the output membership at a point is the maximum of the terms clipped
      at their cut levels;
    - the crisp output is the [centroid] of that piecewise-linear
      membership, and a zero total membership raises. *)

(** [skfuzzy.trimf] at one point. *)
Definition trimf (a b c x : Q) : Q :=
  if Qeq_bool x b then 1
  else if negb (Qeq_bool a b) && Qltb a x && Qltb x b then (x - a) / (b - a)
  else if negb (Qeq_bool b c) && Qltb b x && Qltb x c then (c - x) / (c - b)
  else 0.

(** [np.fmin] and [np.fmax] on two numbers. *)
Definition fmin (a b : Q) : Q := if Qle_bool a b then a else b.
Definition fmax (a b : Q) : Q := if Qle_bool a b then b else a.

Definition soil_dry := trimf 0 0 40.
Definition soil_moderate := trimf 30 50 70.
Definition soil_wet := trimf 60 100 100.
Definition weather_clear := trimf 0 0 1.
Definition weather_rainy := trimf 1 2 2.
Definition need_low := trimf 0 0 40.
Definition need_medium := trimf 30 50 70.
Definition need_high := trimf 60 100 100.

(** [np.arange(0, 101, 1)] *)
Definition irrigation_need_universe : list Q :=
  map (fun n => inject_Z (Z.of_nat n)) (seq 0 101).

(** The points where [trimf a b c] crosses the cut level [y]
    ([interp_universe_fast] on a triangle). *)
Definition crossings (a b c y : Q) : list Q :=
  (if Qeq_bool a b then [] else [a + y * (b - a)]) ++
  (if Qeq_bool b c then [] else [c - y * (c - b)]).

(** Insertion into a strictly increasing list, dropping duplicates. *)
Fixpoint insert_sorted (x : Q) (l : list Q) : list Q :=
  match l with
  | [] => [x]
  | y :: l' =>
      if Qeq_bool x y then l
      else if Qltb x y then x :: l
      else y :: insert_sorted x l'
  end.

(** [np.union1d] of a sorted universe with new points. *)
Definition union1d (universe new_values : list Q) : list Q :=
  fold_right insert_sorted universe new_values.

(** [np.finfo(float).eps] *)
Definition float_eps : Q := 1 # 4503599627370496.

(** One segment of [skfuzzy.defuzzify.centroid]: the centroid and the area
    of the trapezoid under the segment, or nothing for a degenerate
    segment. *)
Definition centroid_segment (x1 y1 x2 y2 : Q) : option (Q * Q) :=
  if (Qeq_bool y1 y2 && Qeq_bool y2 0) || Qeq_bool x1 x2 then None
  else if Qeq_bool y1 y2 then Some ((1 # 2) * (x1 + x2), (x2 - x1) * y1)
  else if Qeq_bool y1 0 then Some ((2 # 3) * (x2 - x1) + x1, (1 # 2) * (x2 - x1) * y2)
  else if Qeq_bool y2 0 then Some ((1 # 3) * (x2 - x1) + x1, (1 # 2) * (x2 - x1) * y1)
  else Some ((2 # 3) * (x2 - x1) * (y2 + (1 # 2) * y1) / (y1 + y2) + x1,
             (1 # 2) * (x2 - x1) * (y1 + y2)).

(** The loop of [centroid] over consecutive points, accumulating
    [sum_moment_area] and [sum_area]. *)
Fixpoint centroid_sums (x1 y1 : Q) (rest : list (Q * Q)) (sum_moment_area sum_area : Q)
    : Q * Q :=
  match rest with
  | [] => (sum_moment_area, sum_area)
  | (x2, y2) :: rest' =>
      match centroid_segment x1 y1 x2 y2 with
      | Some (moment, area) =>
          centroid_sums x2 y2 rest' (sum_moment_area + moment * area) (sum_area + area)
      | None => centroid_sums x2 y2 rest' sum_moment_area sum_area
      end
  end.

(** [skfuzzy.defuzzify.centroid]:
    [sum_moment_area / np.fmax(sum_area, np.finfo(float).eps)]. *)
Definition centroid (pts : list (Q * Q)) : Q :=
  match pts with
  | [] => 0
  | [(x, y)] => x * y / fmax y float_eps
  | (x1, y1) :: rest =>
      let (sum_moment_area, sum_area) := centroid_sums x1 y1 rest 0 0 in
      sum_moment_area / fmax sum_area float_eps
  end.

Fixpoint sumQ (l : list Q) : Q :=
  match l with [] => 0 | y :: l' => y + sumQ l' end.

(** The crossings of the three [irrigation_need] terms at their cuts. *)
Definition irrigation_new_values (low_cut medium_cut high_cut : Q) : list Q :=
  crossings 0 0 40 low_cut ++ crossings 30 50 70 medium_cut ++
  crossings 60 100 100 high_cut.

(** The aggregated output membership: the terms clipped at their cut
    levels, combined with [np.fmax]. *)
Definition irrigation_output_mf (low_cut medium_cut high_cut x : Q) : Q :=
  fmax (fmax (fmax 0 (fmin low_cut (need_low x))) (fmin medium_cut (need_medium x)))
    (fmin high_cut (need_high x)).

(** Defuzzification of [irrigation_need]; [None] is the exception raised
    when the total membership is zero. *)
Definition irrigation_defuzz (low_cut medium_cut high_cut : Q) : option Q :=
  let xs := union1d irrigation_need_universe
              (irrigation_new_values low_cut medium_cut high_cut) in
  let ys := map (irrigation_output_mf low_cut medium_cut high_cut) xs in
  if Qeq_bool (sumQ ys) 0 then None else Some (centroid (combine xs ys)).

(** [irrigation_sim.compute()] then [output['irrigation_need']] for the
    rule base of [FuzzyEngine.__init__]. *)
Definition irrigation_compute (soil_moisture weather_condition : Q) : option Q :=
  let high_cut := fmin (soil_dry soil_moisture) (weather_clear weather_condition) in
  let medium_cut := fmin (soil_moderate soil_moisture) (weather_clear weather_condition) in
  let low_cut := fmax (soil_wet soil_moisture) (weather_rainy weather_condition) in
  irrigation_defuzz low_cut medium_cut high_cut.

(** The engine owns a scikit-fuzzy [ControlSystemSimulation]; its
    [compute()] followed by [output['irrigation_need']] maps the two
    inputs to a score, or raises ([None]). The record keeps it as a
    parameter; [repository_engine] is the one [__init__] builds. *)
Record FuzzyEngine := mkFuzzyEngine {
  irrigation_sim : Q -> Q -> option Q
}.

(** [FuzzyEngine()] with the rule base of [__init__]. *)
Definition repository_engine : FuzzyEngine := mkFuzzyEngine irrigation_compute.

Record FuzzyDecision := mkFuzzyDecision {
  irrigation_need_score : Q;
  should_irrigate : bool;
  confidence : Q
}.

(** Python's [max(0, min(100, x))]. *)
Definition clamp_moisture (x : Q) : Q :=
  let m := if Qltb x 100 then x else 100 in
  if Qltb 0 m then m else 0.

(** [FuzzyEngine.evaluate_irrigation_need] *)
Definition evaluate_irrigation_need (fe : FuzzyEngine)
    (soil_moisture_percent : Q) (weather_condition : string) : FuzzyDecision :=
  let wv := weather_value weather_condition in
  let sm := clamp_moisture soil_moisture_percent in
  let irrigation_need_score :=
    match irrigation_sim fe sm wv with
    | Some s => s
    | None => 50
    end in
  mkFuzzyDecision irrigation_need_score
    (Qle_bool 50 irrigation_need_score)
    (Qabs (irrigation_need_score - 50) / 50).

(** Python's [max(0, min(500, x))]. *)
Definition clamp_pressure (x : Q) : Q :=
  let m := if Qltb x 500 then x else 500 in
  if Qltb 0 m then m else 0.

Record PressureAdjustment := mkPressureAdjustment {
  adjustment_kpa : Q;
  recommended_pressure_kpa : Q;
  current_pressure_kpa : Q;
  target_pressure_kpa : Q
}.

(** [FuzzyEngine.evaluate_pressure_adjustment]; [pressure_sim] is the
    engine's second scikit-fuzzy simulation ([pressure_sim.compute()]
    followed by [output['pump_pressure_adjustment']]), kept abstract like
    [irrigation_sim]: it maps the clamped pressure to an adjustment, or
    raises ([None]). *)
Definition evaluate_pressure_adjustment (pressure_sim : Q -> option Q)
    (current_pressure_kpa target_pressure_kpa : Q) : PressureAdjustment :=
  let pressure_value := clamp_pressure current_pressure_kpa in
  let adjustment :=
    match pressure_sim pressure_value with
    | Some a => a
    | None => target_pressure_kpa - current_pressure_kpa
    end in
  mkPressureAdjustment adjustment (current_pressure_kpa + adjustment)
    current_pressure_kpa target_pressure_kpa.

End FuzzyEngine.

(** ** Auxiliary definitions for bounding the centroid

    These are not code of the repository: they name the quantities that
    the proof about [FuzzyEngine.irrigation_compute] reasons with. *)
Module CentroidBounds.





(** An antiderivative of [(x - 50) * (al * x + be)]. *)
Definition Pm (al be x : Q) : Q :=
  al * (1 # 3) * (x * x * x) + (be - 50 * al) * (1 # 2) * (x * x) - 50 * be * x.






End CentroidBounds.

(** ** app/decision_engine/hybrid_engine.py *)
Module HybridEngine.

Record HybridEngine := mkHybridEngine {
  rule_weight : Q;
  fuzzy_weight : Q;
  fuzzy_engine : FuzzyEngine.FuzzyEngine
}.

(** [HybridEngine.__init__]: the weights are normalised only when their
    sum is positive. *)
Definition init (rw fw : Q) (fe : FuzzyEngine.FuzzyEngine) : HybridEngine :=
  let total_weight := rw + fw in
  if Qltb 0 total_weight then
    mkHybridEngine (rw / total_weight) (fw / total_weight) fe
  else mkHybridEngine rw fw fe.

Definition default_engine (fe : FuzzyEngine.FuzzyEngine) : HybridEngine :=
  init (4 # 10) (6 # 10) fe.

Record HybridDecision := mkHybridDecision {
  should_irrigate : bool;
  confidence : Q;
  rule_decision : RuleEngine.Decision;
  fuzzy_decision : FuzzyEngine.FuzzyDecision;
  weighted_vote : Q
}.

(** [HybridEngine.should_irrigate] *)
Definition should_irrigate_hybrid (cfg : Config) (he : HybridEngine)
    (soil_moisture_percent : Q) (weather_condition : string) : HybridDecision :=
  let rd := RuleEngine.should_irrigate_rule cfg soil_moisture_percent weather_condition in
  let fd := FuzzyEngine.evaluate_irrigation_need (fuzzy_engine he)
              soil_moisture_percent weather_condition in
  let rule_vote : Q := if RuleEngine.should_irrigate rd then 1 else 0 in
  let fuzzy_vote : Q := if FuzzyEngine.should_irrigate fd then 1 else 0 in
  let wv := rule_vote * rule_weight he + fuzzy_vote * fuzzy_weight he in
  let combined_confidence :=
    RuleEngine.confidence rd * rule_weight he
    + FuzzyEngine.confidence fd * fuzzy_weight he in
  mkHybridDecision (Qle_bool (1 # 2) wv) combined_confidence rd fd wv.

(** [HybridEngine.evaluate_pressure_adjustment] delegates to the fuzzy
    engine. *)
Definition evaluate_pressure_adjustment (pressure_sim : Q -> option Q)
    (current_pressure_kpa target_pressure_kpa : Q) : FuzzyEngine.PressureAdjustment :=
  FuzzyEngine.evaluate_pressure_adjustment pressure_sim current_pressure_kpa
    target_pressure_kpa.

(** [HybridEngine.calculate_irrigation_duration] delegates to the rule
    engine. *)
Definition calculate_irrigation_duration (he : HybridEngine)
    (current_moisture target_moisture area_m2 flow_rate_lpm : Q) : Q :=
  RuleEngine.calculate_irrigation_duration current_moisture target_moisture area_m2
    flow_rate_lpm.

End HybridEngine.

(** ** Actuators, logs and the controllers' shared state *)

Inductive PumpId := IrrigationPump | FertilizerPump.

Definition PumpId_eqb (a b : PumpId) : bool :=
  match a, b with
  | IrrigationPump, IrrigationPump | FertilizerPump, FertilizerPump => true
  | _, _ => false
  end.

Inductive TankValve := Inlet | Outlet.

Inductive OperationType := IRRIGATION | FERTIGATION.
Inductive OperationStatus := STARTED | IN_PROGRESS | COMPLETED | FAILED | SKIPPED | STOPPED.
Inductive LogLevel := INFO | WARNING | ERROR.

(** Actuator commands, in the order they are issued, and log records. *)
Inductive Event :=
  | EValveOpen (z : Z)
  | EValveClose (z : Z)
  | ETankOpen (t : TankValve)
  | ETankClose (t : TankValve)
  | EPumpStart (p : PumpId)
  | EPumpStop (p : PumpId)
  | ESetPressure (p : PumpId) (kpa : Q)
  | EOpLog (k : OperationType) (z : option Z) (s : OperationStatus)
  | ESysLog (lvl : LogLevel).

(** GPIO writes; any of them may raise on a hardware fault. *)
Inductive HwOp := GpioPump (p : PumpId) | GpioValve (z : Z) | GpioTank (t : TankValve).

(** [SimplePumpController] (app/hardware/pump_interface.py) *)
Record Pump := mkPump { is_pump_running : bool; pump_target_pressure : Q }.

(** [HydraulicPumpController] (app/hydraulics/pump_controller.py);
    [mock_pressure] is the pressure last written into the mock ADC by
    [_update_mock_pressure_sensor]. *)
Record PumpCtl := mkPumpCtl {
  target_pressure_kpa : Q;
  last_adjustment_time : Q;
  is_controlling : bool;
  mock_pressure : option Q
}.

(** [is_running], [current_zone], [start_time] of a cycle controller;
    [threads] counts the background threads it has spawned. *)
Record CycleState := mkCycleState {
  is_running : bool;
  current_zone : option Z;
  start_time : option Q;
  threads : nat
}.

Record World := mkWorld {
  irr : CycleState;                   (* IrrigationController *)
  fert : CycleState;                  (* FertigationController *)
  pctl : PumpId -> PumpCtl;
  pumps : PumpId -> Pump;
  valve_states : list (Z * bool);     (* SolenoidValveController.valve_states *)
  valve_current_zone : option Z;      (* HydraulicValveController.current_zone *)
  tank_open : TankValve -> bool;
  trace : list Event;
  clock : Q;                          (* time.time() *)
  tick : nat                          (* iteration of the running cycle loop *)
}.

(** The points of a running irrigation cycle at which an API thread's
    [stop_irrigation] may run in this model: right after the cycle thread
    has opened the zone valve (between lines 181 and 185 of
    [_irrigation_cycle], before the pump is started), or at the top of
    the loop iteration [k]. *)
Inductive StopPoint := AfterZoneOpen | LoopIteration (k : nat).

Definition StopPoint_eqb (p q : StopPoint) : bool :=
  match p, q with
  | AfterZoneOpen, AfterZoneOpen => true
  | LoopIteration k, LoopIteration k' => Nat.eqb k k'
  | _, _ => false
  end.

(** What the collaborators do: sensor readings ([None] when
    [read_standardized] raises), GPIO faults, and the point at which an
    API thread calls [stop_irrigation] during a cycle. *)
Record Env := mkEnv {
  cfg : Config;
  engine : HybridEngine.HybridEngine;
  reference_altitude_m : Q;
  hw_fault : HwOp -> nat -> bool;
  weather_reading : nat -> option string;
  soil_moisture_sensors : list (Z * (nat -> option Q));
  pressure_sensor : option (nat -> option Q);
  tank_level_reading : nat -> option Q;
  has_mock_sensor : PumpId -> bool;
  stop_request_at : option StopPoint;
  (* FertigationController wiring: optional pump controllers, weather gate *)
  fert_has_fertilizer_pump : bool;
  fert_has_irrigation_pump : bool;
  fert_check_weather : bool
}.

Inductive Exn :=
  | GpioError (op : HwOp)
  | ValueError
  | KeyError
  | CycleError (zone : Z).

(** ** A state-and-exception monad *)
Inductive Res (A : Type) := Ok (a : A) | Raise (e : Exn).
Arguments Ok {A} a.
Arguments Raise {A} e.

Definition M (A : Type) := Env -> World -> Res A * World.

Definition ret {A} (a : A) : M A := fun _ w => (Ok a, w).
Definition bind {A B} (m : M A) (k : A -> M B) : M B :=
  fun env w => match m env w with
               | (Ok a, w') => k a env w'
               | (Raise e, w') => (Raise e, w')
               end.
Definition raise {A} (e : Exn) : M A := fun _ w => (Raise e, w).
Definition ask : M Env := fun env w => (Ok env, w).
Definition get : M World := fun _ w => (Ok w, w).
Definition modify (f : World -> World) : M unit := fun _ w => (Ok tt, f w).

(** [try: m except Exception: h] *)
Definition try_except {A} (m : M A) (h : Exn -> M A) : M A :=
  fun env w => match m env w with
               | (Raise e, w') => h e env w'
               | r => r
               end.

(** [try: m except: pass] *)
Definition try_pass (m : M unit) : M unit := try_except m (fun _ => ret tt).

Notation "x <- m ;; k" := (bind m (fun x => k)) (at level 61, m at next level, right associativity).
Notation "m ;; k" := (bind m (fun _ => k)) (at level 61, right associativity).

Definition when (b : bool) (m : M unit) : M unit := if b then m else ret tt.

(** Setters *)
Definition upd {A} (f : PumpId -> A) (p : PumpId) (a : A) : PumpId -> A :=
  fun q => if PumpId_eqb p q then a else f q.

Definition upd_tank (f : TankValve -> bool) (t : TankValve) (b : bool) : TankValve -> bool :=
  fun u => match t, u with
           | Inlet, Inlet | Outlet, Outlet => b
           | _, _ => f u
           end.

Definition set_irr (c : CycleState) (w : World) : World :=
  mkWorld c (fert w) (pctl w) (pumps w) (valve_states w) (valve_current_zone w)
    (tank_open w) (trace w) (clock w) (tick w).
Definition set_fert (c : CycleState) (w : World) : World :=
  mkWorld (irr w) c (pctl w) (pumps w) (valve_states w) (valve_current_zone w)
    (tank_open w) (trace w) (clock w) (tick w).
Definition set_pctl (p : PumpId) (c : PumpCtl) (w : World) : World :=
  mkWorld (irr w) (fert w) (upd (pctl w) p c) (pumps w) (valve_states w)
    (valve_current_zone w) (tank_open w) (trace w) (clock w) (tick w).
Definition set_pump (p : PumpId) (c : Pump) (w : World) : World :=
  mkWorld (irr w) (fert w) (pctl w) (upd (pumps w) p c) (valve_states w)
    (valve_current_zone w) (tank_open w) (trace w) (clock w) (tick w).
Definition set_valves (vs : list (Z * bool)) (w : World) : World :=
  mkWorld (irr w) (fert w) (pctl w) (pumps w) vs (valve_current_zone w)
    (tank_open w) (trace w) (clock w) (tick w).
Definition set_valve_zone (z : option Z) (w : World) : World :=
  mkWorld (irr w) (fert w) (pctl w) (pumps w) (valve_states w) z
    (tank_open w) (trace w) (clock w) (tick w).
Definition set_tank (t : TankValve) (b : bool) (w : World) : World :=
  mkWorld (irr w) (fert w) (pctl w) (pumps w) (valve_states w)
    (valve_current_zone w) (upd_tank (tank_open w) t b) (trace w) (clock w) (tick w).
Definition emit (e : Event) : M unit :=
  modify (fun w => mkWorld (irr w) (fert w) (pctl w) (pumps w) (valve_states w)
    (valve_current_zone w) (tank_open w) (trace w ++ [e]) (clock w) (tick w)).
Definition sleep (dt : Q) : M unit :=
  modify (fun w => mkWorld (irr w) (fert w) (pctl w) (pumps w) (valve_states w)
    (valve_current_zone w) (tank_open w) (trace w) (clock w + dt) (tick w)).
Definition next_tick : M unit :=
  modify (fun w => mkWorld (irr w) (fert w) (pctl w) (pumps w) (valve_states w)
    (valve_current_zone w) (tank_open w) (trace w) (clock w) (S (tick w))).

Definition now : M Q := w <- get ;; ret (clock w).

(** [gpio.write_pin]: raises on a fault, otherwise the write happens. *)
Definition write_pin (op : HwOp) : M unit :=
  fun env w => if hw_fault env op (tick w) then (Raise (GpioError op), w) else (Ok tt, w).

(** ** SimplePumpController *)
Module PumpInterface.

Definition start (p : PumpId) : M unit :=
  emit (EPumpStart p) ;;
  write_pin (GpioPump p) ;;
  modify (fun w => set_pump p (mkPump true (pump_target_pressure (pumps w p))) w).

Definition stop (p : PumpId) : M unit :=
  emit (EPumpStop p) ;;
  write_pin (GpioPump p) ;;
  modify (fun w => set_pump p (mkPump false (pump_target_pressure (pumps w p))) w).

Definition is_running_pump (p : PumpId) : M bool :=
  w <- get ;; ret (is_pump_running (pumps w p)).

Definition set_pressure (p : PumpId) (kpa : Q) : M unit :=
  emit (ESetPressure p kpa) ;;
  modify (fun w => set_pump p (mkPump (is_pump_running (pumps w p)) kpa) w) ;;
  r <- is_running_pump p ;;
  when (negb r && Qltb 0 kpa) (start p).

Definition get_current_pressure (p : PumpId) : M Q :=
  w <- get ;;
  ret (if is_pump_running (pumps w p) then pump_target_pressure (pumps w p) else 0).

End PumpInterface.

(** ** HydraulicPumpController *)
Module PumpController.

Inductive PressureStatus :=
  | NotControlling
  | Waiting
  | Stable (current target diff : Q)
  | Adjusted (current target new_target diff : Q).

Definition get_ctl (p : PumpId) : M PumpCtl := w <- get ;; ret (pctl w p).
Definition put_ctl (p : PumpId) (c : PumpCtl) : M unit := modify (set_pctl p c).

(** [_update_mock_pressure_sensor]: only with a mock pressure sensor
    attached; the sensor is made to report [kpa]. *)
Definition update_mock_pressure_sensor (p : PumpId) (kpa : Q) : M unit :=
  env <- ask ;;
  when (has_mock_sensor env p)
    (c <- get_ctl p ;;
     put_ctl p (mkPumpCtl (target_pressure_kpa c) (last_adjustment_time c)
                  (is_controlling c) (Some kpa))).

Definition start_pressure_control (p : PumpId) (target : Q) : M unit :=
  c <- get_ctl p ;;
  put_ctl p (mkPumpCtl target (last_adjustment_time c) true (mock_pressure c)) ;;
  r <- PumpInterface.is_running_pump p ;;
  when (negb r) (PumpInterface.start p) ;;
  PumpInterface.set_pressure p target ;;
  env <- ask ;;
  when (USE_MOCK_HARDWARE (cfg env)) (update_mock_pressure_sensor p target).

Definition stop_pressure_control (p : PumpId) : M unit :=
  c <- get_ctl p ;;
  put_ctl p (mkPumpCtl (target_pressure_kpa c) (last_adjustment_time c) false
               (mock_pressure c)) ;;
  PumpInterface.stop p.

Definition maintain_pressure (p : PumpId) (current_pressure_kpa : option Q)
    : M PressureStatus :=
  env <- ask ;;
  c <- get_ctl p ;;
  if negb (is_controlling c) then ret NotControlling else
  current_time <- now ;;
  if Qltb (current_time - last_adjustment_time c)
          (PUMP_ADJUSTMENT_INTERVAL_SEC (cfg env)) then ret Waiting else
  cur <- match current_pressure_kpa with
         | Some x => ret x
         | None => PumpInterface.get_current_pressure p
         end ;;
  let pressure_diff := target_pressure_kpa c - cur in
  if Qle_bool (Qabs pressure_diff) (PUMP_PRESSURE_TOLERANCE_KPA (cfg env)) then
    ret (Stable cur (target_pressure_kpa c) pressure_diff)
  else
    let new_target := target_pressure_kpa c + pressure_diff * (1 # 2) in
    PumpInterface.set_pressure p new_target ;;
    c' <- get_ctl p ;;
    put_ctl p (mkPumpCtl (target_pressure_kpa c') current_time (is_controlling c')
                 (mock_pressure c')) ;;
    when (USE_MOCK_HARDWARE (cfg env) && Qltb 0 pressure_diff)
      (update_mock_pressure_sensor p new_target) ;;
    ret (Adjusted cur (target_pressure_kpa c) new_target pressure_diff).

(** Repeated calls with a fixed pressure reading, the clock advancing by
    [dt] after each call. *)
Fixpoint maintain_loop (p : PumpId) (cur dt : Q) (n : nat) : M (list PressureStatus) :=
  match n with
  | O => ret []
  | S n' =>
      s <- maintain_pressure p (Some cur) ;;
      sleep dt ;;
      rest <- maintain_loop p cur dt n' ;;
      ret (s :: rest)
  end.

(** [is_pressure_stable] *)
Definition is_pressure_stable (p : PumpId) (current_pressure_kpa : option Q) : M bool :=
  env <- ask ;;
  c <- get_ctl p ;;
  if negb (is_controlling c) then ret false else
  cur <- match current_pressure_kpa with
         | Some x => ret x
         | None => PumpInterface.get_current_pressure p
         end ;;
  ret (Qle_bool (Qabs (target_pressure_kpa c - cur)) (PUMP_PRESSURE_TOLERANCE_KPA (cfg env))).

End PumpController.

(** ** PressureCalculator (app/hydraulics/pressure_calculator.py) *)
Module PressureCalculator.

Definition calculate_elevation_head (altitude_difference_m : Q) : Q :=
  WATER_DENSITY_KG_PER_M3 * GRAVITY_M_PER_S2 * altitude_difference_m / 1000.

Definition calculate_slope_loss (c : Config) (slope_degrees : Q) : Q :=
  Qabs slope_degrees * PRESSURE_LOSS_PER_DEGREE_SLOPE_KPA c.

(** [calculate_required_pressure(...)['total_required_pressure_kpa']] *)
Definition total_required_pressure (c : Config) (reference_altitude : Q)
    (zone_altitude_m zone_slope_degrees base_pressure_kpa : Q) : Q :=
  base_pressure_kpa
  + calculate_elevation_head (zone_altitude_m - reference_altitude)
  + calculate_slope_loss c zone_slope_degrees.

Record PressureCalc := mkPressureCalc {
  base_pressure_kpa : Q;
  elevation_head_kpa : Q;
  slope_loss_kpa : Q;
  total_required_pressure_kpa : Q;
  altitude_difference_m : Q;
  zone_slope_degrees : Q
}.

(** [calculate_required_pressure] with its whole result dictionary. *)
Definition calculate_required_pressure (c : Config) (reference_altitude : Q)
    (zone_altitude_m zone_slope_degrees base_pressure_kpa : Q) : PressureCalc :=
  let altitude_difference_m := zone_altitude_m - reference_altitude in
  let elevation_head_pressure_kpa := calculate_elevation_head altitude_difference_m in
  let slope_pressure_loss_kpa := calculate_slope_loss c zone_slope_degrees in
  let total_pressure_kpa :=
    base_pressure_kpa + elevation_head_pressure_kpa + slope_pressure_loss_kpa in
  mkPressureCalc base_pressure_kpa elevation_head_pressure_kpa slope_pressure_loss_kpa
    total_pressure_kpa altitude_difference_m zone_slope_degrees.

Record PressureRange := mkPressureRange {
  range_target_pressure_kpa : Q;
  min_pressure_kpa : Q;
  max_pressure_kpa : Q
}.

(** [calculate_zone_pressure_range] (default [tolerance_kpa = 10.0]). *)
Definition calculate_zone_pressure_range (required_pressure_kpa tolerance_kpa : Q)
    : PressureRange :=
  mkPressureRange required_pressure_kpa
    (if Qltb 0 (required_pressure_kpa - tolerance_kpa)
     then required_pressure_kpa - tolerance_kpa else 0)
    (required_pressure_kpa + tolerance_kpa).

End PressureCalculator.

(** A [zone_config] dictionary; a missing key is [None]. *)
Record ZoneConfig := mkZoneConfig {
  zc_altitude : option Q;
  zc_slope : option Q;
  zc_base_pressure : option Q
}.

Definition key {A} (o : option A) : M A :=
  match o with Some a => ret a | None => raise KeyError end.

(** ** SolenoidValveController and HydraulicValveController *)
Module Valves.

Fixpoint set_state (vs : list (Z * bool)) (z : Z) (b : bool) : list (Z * bool) :=
  match vs with
  | [] => []
  | (z', b') :: vs' =>
      if Z.eqb z z' then (z', b) :: vs' else (z', b') :: set_state vs' z b
  end.

Definition configured (vs : list (Z * bool)) (z : Z) : bool :=
  existsb (fun p => Z.eqb (fst p) z) vs.

Definition open_valve (z : Z) : M unit :=
  w <- get ;;
  if negb (configured (valve_states w) z) then raise ValueError else
  emit (EValveOpen z) ;;
  write_pin (GpioValve z) ;;
  modify (fun w => set_valves (set_state (valve_states w) z true) w).

Definition close_valve (z : Z) : M unit :=
  w <- get ;;
  if negb (configured (valve_states w) z) then raise ValueError else
  emit (EValveClose z) ;;
  write_pin (GpioValve z) ;;
  modify (fun w => set_valves (set_state (valve_states w) z false) w).

Fixpoint close_each (zs : list Z) : M unit :=
  match zs with
  | [] => ret tt
  | z :: zs' => close_valve z ;; close_each zs'
  end.

Definition close_all_valves : M unit :=
  w <- get ;; close_each (map fst (valve_states w)).

(** [HydraulicValveController.open_zone] *)
Definition open_zone (z : Z) (close_others : bool) : M bool :=
  try_except
    (when close_others (close_all_valves ;; sleep (1 # 2)) ;;
     open_valve z ;;
     modify (set_valve_zone (Some z)) ;;
     ret true)
    (fun _ => ret false).

(** [HydraulicValveController.close_zone] *)
Definition close_zone (z : Z) : M bool :=
  try_except
    (close_valve z ;;
     w <- get ;;
     when (match valve_current_zone w with Some z' => Z.eqb z' z | None => false end)
       (modify (set_valve_zone None)) ;;
     ret true)
    (fun _ => ret false).

Definition is_open (w : World) (z : Z) : bool :=
  existsb (fun p => Z.eqb (fst p) z && snd p) (valve_states w).

(** [SolenoidValveController.is_valve_open]: [valve_states.get(zone_id, False)] *)
Definition is_valve_open (z : Z) : M bool := w <- get ;; ret (is_open w z).

(** [SolenoidValveController.get_open_valves] *)
Definition get_open_valves : M (list Z) :=
  w <- get ;; ret (map fst (filter snd (valve_states w))).

(** [HydraulicValveController.close_all_zones] *)
Definition close_all_zones : M bool :=
  try_except
    (close_all_valves ;;
     modify (set_valve_zone None) ;;
     ret true)
    (fun _ => ret false).

(** The zone sequence of a [HydraulicValveController]. *)
Record ZoneSequence := mkZoneSequence {
  zone_sequence : list Z;
  sequence_index : nat
}.

(** [set_zone_sequence] *)
Definition set_zone_sequence (zone_ids : list Z) : ZoneSequence :=
  mkZoneSequence zone_ids 0.

(** [get_next_zone]: the zone and the updated sequence. *)
Definition get_next_zone (s : ZoneSequence) : option Z * ZoneSequence :=
  if (match zone_sequence s with [] => true | _ => false end)
     || (length (zone_sequence s) <=? sequence_index s)%nat
  then (None, s)
  else match nth_error (zone_sequence s) (sequence_index s) with
       | Some zone_id => (Some zone_id, mkZoneSequence (zone_sequence s) (S (sequence_index s)))
       | None => (None, s)
       end.

(** [reset_sequence] *)
Definition reset_sequence (s : ZoneSequence) : ZoneSequence :=
  mkZoneSequence (zone_sequence s) 0.

(** [n] successive calls of [get_next_zone]. *)
Fixpoint next_zones (n : nat) (s : ZoneSequence) : list (option Z) :=
  match n with
  | O => []
  | S n' => let (z, s') := get_next_zone s in z :: next_zones n' s'
  end.

End Valves.

(** ** IrrigationController (app/controllers/irrigation_controller.py) *)
Module Irrigation.
Import PumpController.

Inductive StartResult :=
  | AlreadyRunning (current : option Z)
  | WeatherReadFailed
  | WeatherNotSuitable (condition : string)
  | NoSoilSensor (zone : Z)
  | Skipped (moisture : Q) (d : HybridEngine.HybridDecision)
  | Started (zone : Z) (moisture : Q) (d : HybridEngine.HybridDecision).

(** The ['success'] entry of the returned dictionary. *)
Definition success (r : StartResult) : bool :=
  match r with Started _ _ _ => true | _ => false end.

Inductive StopResult := NoIrrigationInProgress | IrrigationStopped.

(** Python truthiness of [self.current_zone]: [None] and [0] are false. *)
Definition truthy_zone (o : option Z) : bool :=
  match o with Some z => negb (Z.eqb z 0) | None => false end.

(** [_log_operation] and [_log_system] swallow database errors. *)
Definition log_operation (z : option Z) (s : OperationStatus) : M unit :=
  emit (EOpLog IRRIGATION z s).
Definition log_system (lvl : LogLevel) : M unit := emit (ESysLog lvl).

Definition get_irr : M CycleState := w <- get ;; ret (irr w).
Definition put_irr (c : CycleState) : M unit := modify (set_irr c).

(** [self.is_running = False; self.current_zone = None] *)
Definition clear_running : M unit :=
  c <- get_irr ;; put_irr (mkCycleState false None (start_time c) (threads c)).

Fixpoint lookup_sensor (ss : list (Z * (nat -> option Q))) (z : Z)
    : option (nat -> option Q) :=
  match ss with
  | [] => None
  | (z', s) :: ss' => if Z.eqb z z' then Some s else lookup_sensor ss' z
  end.

(** [sensor.read_standardized()['value']] *)
Definition read_sensor (s : nat -> option Q) : M Q :=
  w <- get ;; match s (tick w) with Some v => ret v | None => raise ValueError end.

Definition read_weather : M string :=
  env <- ask ;; w <- get ;;
  match weather_reading env (tick w) with Some c => ret c | None => raise ValueError end.

Definition start_irrigation (zone_id : Z) (zone_config : ZoneConfig) : M StartResult :=
  c <- get_irr ;;
  if is_running c then ret (AlreadyRunning (current_zone c)) else
  wd <- try_except (cond <- read_weather ;; ret (Some cond))
                   (fun _ => log_system ERROR ;; ret None) ;;
  match wd with
  | None => ret WeatherReadFailed
  | Some cond =>
    log_system INFO ;;
    if negb (String.eqb cond "clear") then ret (WeatherNotSuitable cond) else
    env <- ask ;;
    match lookup_sensor (soil_moisture_sensors env) zone_id with
    | None => ret (NoSoilSensor zone_id)
    | Some soil_sensor =>
      current_moisture <- read_sensor soil_sensor ;;
      let decision := HybridEngine.should_irrigate_hybrid (cfg env) (engine env)
                        current_moisture cond in
      if negb (HybridEngine.should_irrigate decision) then
        log_operation (Some zone_id) SKIPPED ;;
        ret (Skipped current_moisture decision)
      else
        t <- now ;;
        c' <- get_irr ;;
        put_irr (mkCycleState true (Some zone_id) (Some t) (S (threads c'))) ;;
        ret (Started zone_id current_moisture decision)
    end
  end.

(** [_stop_irrigation] *)
Definition stop_cleanup (zone_id : Z) (start_moisture : Q) : M unit :=
  stop_pressure_control IrrigationPump ;;
  _ <- Valves.close_zone zone_id ;;
  env <- ask ;;
  _ <- match lookup_sensor (soil_moisture_sensors env) zone_id with
       | Some s => try_except (read_sensor s) (fun _ => ret start_moisture)
       | None => ret start_moisture
       end ;;
  try_pass (_ <- read_weather ;; ret tt) ;;
  log_operation (Some zone_id) COMPLETED ;;
  clear_running.

(** [stop_irrigation] *)
Definition stop_irrigation : M StopResult :=
  c <- get_irr ;;
  if negb (is_running c) then ret NoIrrigationInProgress else
  put_irr (mkCycleState false (current_zone c) (start_time c) (threads c)) ;;
  (match current_zone c with
   | Some z =>
     when (truthy_zone (Some z))
       (env <- ask ;;
        sm <- match lookup_sensor (soil_moisture_sensors env) z with
              | Some s => try_except (read_sensor s) (fun _ => ret 0)
              | None => ret 0
              end ;;
        stop_cleanup z sm ;;
        c' <- get_irr ;;
        log_operation (current_zone c') STOPPED)
   | None => ret tt
   end) ;;
  ret IrrigationStopped.

(** An API thread calling [stop_irrigation] at the point [p] of the
    cycle thread; what it returns or raises goes to that thread. *)
Definition external_stop_at (p : StopPoint) : M unit :=
  env <- ask ;;
  match stop_request_at env with
  | Some q => when (StopPoint_eqb q p)
                (try_except (_ <- stop_irrigation ;; ret tt) (fun _ => ret tt))
  | None => ret tt
  end.

(** The same between two iterations of the cycle loop. *)
Definition external_stop : M unit :=
  w <- get ;; external_stop_at (LoopIteration (tick w)).

(** One system-wide pressure reading, [None] when there is no sensor or
    its read raises. *)
Definition read_pressure : M (option Q) :=
  env <- ask ;;
  match pressure_sensor env with
  | None => ret None
  | Some s => try_except (v <- read_sensor s ;; ret (Some v)) (fun _ => ret None)
  end.

Inductive LoopStep := Break | Continue (last_moisture_check : Q).

(** The periodic soil-moisture check of the loop body. *)
Definition moisture_check (soil_sensor : nat -> option Q) (last_check : Q) : M LoopStep :=
  env <- ask ;; t <- now ;;
  if Qle_bool (MOISTURE_CHECK_INTERVAL_SEC (cfg env)) (t - last_check) then
    brk <- try_except
             (m <- read_sensor soil_sensor ;;
              if Qle_bool (ADEQUATE_SOIL_MOISTURE_PERCENT (cfg env)) m
              then log_system INFO ;; ret true
              else ret false)
             (fun _ => log_system ERROR ;; ret false) ;;
    if brk then ret Break else (t' <- now ;; ret (Continue t'))
  else ret (Continue last_check).

(** [while self.is_running: ...]; every iteration sleeps one second. *)
Fixpoint irrigation_loop (soil_sensor : nat -> option Q)
    (operation_start_time last_check : Q) (fuel : nat) : M unit :=
  match fuel with
  | O => ret tt
  | S fuel' =>
    external_stop ;;
    c <- get_irr ;;
    if negb (is_running c) then ret tt else
    env <- ask ;; t <- now ;;
    if Qltb (MAX_OPERATION_DURATION_SEC (cfg env)) (t - operation_start_time)
    then log_system WARNING
    else
      cur <- read_pressure ;;
      _ <- maintain_pressure IrrigationPump cur ;;
      st <- moisture_check soil_sensor last_check ;;
      match st with
      | Break => ret tt
      | Continue last' =>
        sleep 1 ;; next_tick ;;
        irrigation_loop soil_sensor operation_start_time last' fuel'
      end
  end.

(** Enough iterations to reach the [MAX_OPERATION_DURATION_SEC] timeout. *)
Definition loop_fuel (c : Config) : nat :=
  (Z.to_nat (Qceiling (MAX_OPERATION_DURATION_SEC c)) + 2)%nat.

(** [_irrigation_cycle] *)
Definition irrigation_cycle (zone_id : Z) (zone_config : ZoneConfig)
    (start_moisture : Q) : M unit :=
  try_except
    (log_operation (Some zone_id) STARTED ;;
     alt <- key (zc_altitude zone_config) ;;
     slope <- key (zc_slope zone_config) ;;
     base <- key (zc_base_pressure zone_config) ;;
     env <- ask ;;
     let target := PressureCalculator.total_required_pressure (cfg env)
                     (reference_altitude_m env) alt slope base in
     ok <- Valves.open_zone zone_id true ;;
     if negb ok then raise (CycleError zone_id) else
     external_stop_at AfterZoneOpen ;;
     start_pressure_control IrrigationPump target ;;
     log_operation (Some zone_id) IN_PROGRESS ;;
     soil_sensor <- key (lookup_sensor (soil_moisture_sensors env) zone_id) ;;
     t0 <- now ;;
     irrigation_loop soil_sensor t0 t0 (loop_fuel (cfg env)) ;;
     stop_cleanup zone_id start_moisture)
    (fun _ =>
     log_system ERROR ;;
     log_operation (Some zone_id) FAILED ;;
     clear_running).

(** A call of [start_irrigation] followed, when it spawned the thread, by
    the whole thread body. *)
Definition run_irrigation (zone_id : Z) (zone_config : ZoneConfig) : M StartResult :=
  r <- start_irrigation zone_id zone_config ;;
  match r with
  | Started z m _ => irrigation_cycle z zone_config m ;; ret r
  | _ => ret r
  end.

End Irrigation.

(** ** FertigationController (app/controllers/fertigation_controller.py)

    The entry points and the two cleanup routines (normal cleanup
    [_stop_fertigation] and the exception handler of [_fertigation_cycle]). *)
Module Fertigation.
Import PumpController.

Inductive StartResult :=
  | AlreadyRunning (current : option Z)
  | WeatherNotSuitable (condition : string)
  | Started (zone : Z).

Inductive StopResult := NoFertigationInProgress | FertigationStopped.

Definition log_operation (z : option Z) (s : OperationStatus) : M unit :=
  emit (EOpLog FERTIGATION z s).
Definition log_system (lvl : LogLevel) : M unit := emit (ESysLog lvl).

Definition get_fert : M CycleState := w <- get ;; ret (fert w).
Definition put_fert (c : CycleState) : M unit := modify (set_fert c).
Definition clear_running : M unit :=
  c <- get_fert ;; put_fert (mkCycleState false None (start_time c) (threads c)).

(** [TankValveController.close_inlet] / [close_outlet] / [close_all] *)
Definition close_tank (t : TankValve) : M unit :=
  emit (ETankClose t) ;;
  write_pin (GpioTank t) ;;
  modify (set_tank t false).
Definition close_all_tank : M unit := close_tank Inlet ;; close_tank Outlet.

Definition read_tank_level : M Q :=
  env <- ask ;; w <- get ;;
  match tank_level_reading env (tick w) with Some v => ret v | None => raise ValueError end.

(** Stop every configured pump, swallowing errors. *)
Definition stop_all_pumps : M unit :=
  env <- ask ;;
  when (fert_has_fertilizer_pump env) (try_pass (stop_pressure_control FertilizerPump)) ;;
  when (fert_has_irrigation_pump env) (try_pass (stop_pressure_control IrrigationPump)).

(** [_stop_fertigation] *)
Definition stop_cleanup (zone_id : Z) : M unit :=
  stop_all_pumps ;;
  close_all_tank ;;
  _ <- Valves.close_zone zone_id ;;
  try_pass (_ <- read_tank_level ;; ret tt) ;;
  log_operation (Some zone_id) COMPLETED ;;
  clear_running.

(** The [except] branch of [_fertigation_cycle]. *)
Definition failure_cleanup (zone_id : Z) : M unit :=
  log_system ERROR ;;
  log_operation (Some zone_id) FAILED ;;
  stop_all_pumps ;;
  close_all_tank ;;
  _ <- Valves.close_zone zone_id ;;
  clear_running.

Definition start_fertigation (zone_id : Z) : M StartResult :=
  c <- get_fert ;;
  if is_running c then ret (AlreadyRunning (current_zone c)) else
  env <- ask ;;
  rejected <-
    (if fert_check_weather env then
       try_except
         (cond <- Irrigation.read_weather ;;
          if String.eqb cond "rainy" then ret (Some (WeatherNotSuitable cond))
          else ret None)
         (fun _ => log_system WARNING ;; ret None)
     else ret None) ;;
  match rejected with
  | Some r => ret r
  | None =>
    t <- now ;;
    c' <- get_fert ;;
    put_fert (mkCycleState true (Some zone_id) (Some t) (S (threads c'))) ;;
    ret (Started zone_id)
  end.

(** [stop_fertigation] *)
Definition stop_fertigation : M StopResult :=
  c <- get_fert ;;
  if negb (is_running c) then ret NoFertigationInProgress else
  put_fert (mkCycleState false (current_zone c) (start_time c) (threads c)) ;;
  (match current_zone c with
   | Some z =>
     when (Irrigation.truthy_zone (Some z))
       (try_pass (_ <- read_tank_level ;; ret tt) ;;
        stop_cleanup z ;;
        c' <- get_fert ;;
        log_operation (current_zone c') STOPPED)
   | None => ret tt
   end) ;;
  ret FertigationStopped.

End Fertigation.

(** ** Ordering of actuator commands *)
Module Ordering.

(** Irrigation cycle on zone [z]: the scanner state is (irrigation pump
    commanded on, valve of [z] commanded open). A pump start needs the
    valve of [z] open; a valve close needs the pump stopped. *)
Definition step (z : Z) (s : bool * bool) (e : Event) : option (bool * bool) :=
  let (pump_on, zone_open) := s in
  match e with
  | EValveOpen z' => Some (pump_on, zone_open || Z.eqb z' z)
  | EValveClose z' =>
      if pump_on then None else Some (pump_on, zone_open && negb (Z.eqb z' z))
  | EPumpStart IrrigationPump => if zone_open then Some (true, zone_open) else None
  | EPumpStop IrrigationPump => Some (false, zone_open)
  | _ => Some s
  end.

(** Fertigation cleanup: the state is (fertilizer pump on, irrigation
    pump on); no zone or tank valve may be closed while either is on. *)
Definition fstep (s : bool * bool) (e : Event) : option (bool * bool) :=
  let (f_on, i_on) := s in
  match e with
  | EValveClose _ | ETankClose _ => if f_on || i_on then None else Some s
  | EPumpStop FertilizerPump => Some (false, i_on)
  | EPumpStop IrrigationPump => Some (f_on, false)
  | EPumpStart FertilizerPump => Some (true, i_on)
  | EPumpStart IrrigationPump => Some (f_on, true)
  | _ => Some s
  end.

(** Run a scanner over a trace; [None] when some command is out of order. *)
Fixpoint scan_with {S : Type} (stp : S -> Event -> option S) (s : S) (tr : list Event)
    : option S :=
  match tr with
  | [] => Some s
  | e :: tr' => match stp s e with Some s' => scan_with stp s' tr' | None => None end
  end.


Definition fscan := scan_with fstep.

(** [wp stp env m Q w s]: running [m] from [w] appends to the trace a
    list of commands that the scanner accepts from [s], and [Q] holds of
    the outcome, the final world and the final scanner state. *)
Definition wp {S A : Type} (stp : S -> Event -> option S) (env : Env) (m : M A)
    (Q : Res A -> World -> S -> Prop) (w : World) (s : S) : Prop :=
  exists tr s',
    trace (snd (m env w)) = trace w ++ tr /\
    scan_with stp s tr = Some s' /\
    Q (fst (m env w)) (snd (m env w)) s'.

End Ordering.

(** ** Concrete configurations used to exhibit behaviours *)
Module Samples.

(** A fuzzy engine whose scikit-fuzzy computation always raises. *)
Definition fe_fallback : FuzzyEngine.FuzzyEngine :=
  FuzzyEngine.mkFuzzyEngine (fun _ _ => None).


Definition idle : CycleState := mkCycleState false None None 0.

(** Zone 1 configured and closed, both pumps off, clock at 1000 s. *)
Definition world0 : World :=
  mkWorld idle idle (fun _ => mkPumpCtl 0 0 false None) (fun _ => mkPump false 0)
    [(0%Z, false); (1%Z, false)] None (fun _ => false) [] 1000 0.

Definition zc1 : ZoneConfig := mkZoneConfig (Some 0) (Some 0) (Some 200).

(** Default configuration and engine, clear weather, zone 1 at 20 %
    moisture until the 10th loop iteration and 61 % from then on. *)
Definition env_with (fault : HwOp -> nat -> bool)
    (sensors : list (Z * (nat -> option Q))) : Env :=
  mkEnv default_config (HybridEngine.default_engine fe_fallback) 0 fault
    (fun _ => Some "clear"%string) sensors None (fun _ => Some 50)
    (fun _ => false) None false false false.

Definition drying_sensor : nat -> option Q :=
  fun k => if (k <? 10)%nat then Some 20 else Some 61.

(** The irrigation pump's GPIO pin fails from the first loop iteration on. *)
Definition pump_fault_after_start (op : HwOp) (k : nat) : bool :=
  match op with GpioPump IrrigationPump => (1 <=? k)%nat | _ => false end.

Definition env_cleanup_fault : Env :=
  env_with pump_fault_after_start [(1%Z, drying_sensor)].

(** Zone 1's soil sensor raises on every read. *)
Definition env_soil_fault : Env :=
  env_with (fun _ _ => false) [(1%Z, fun _ => None)].

(** A soil sensor on zone 0. *)
Definition env_zone0 : Env :=
  env_with (fun _ _ => false) [(0%Z, fun _ => Some 20); (1%Z, drying_sensor)].


(** A controlling pump controller with target 200 kPa, last adjusted at 0. *)
Definition world_ctl (clk : Q) : World :=
  mkWorld idle idle (fun _ => mkPumpCtl 200 0 true None) (fun _ => mkPump true 200)
    [(1%Z, false)] None (fun _ => false) [] clk 0.

End Samples.

(** * Properties *)

(** ** Decision engines *)

(** Claim C8: [RuleEngine.should_irrigate] always ends in a branch with
    confidence 1.0; it says no whenever the weather is not ['clear'], and
    under ['clear'] it says yes exactly when the moisture is below
    [ADEQUATE_SOIL_MOISTURE_PERCENT]. *)
Theorem rule_engine_priority_chain (c : Config) (m : Q) (w : string) :
  RuleEngine.should_irrigate (RuleEngine.should_irrigate_rule c m w)
    = (String.eqb w "clear" && Qltb m (ADEQUATE_SOIL_MOISTURE_PERCENT c))%bool /\
  RuleEngine.confidence (RuleEngine.should_irrigate_rule c m w) = 1 /\
  (String.eqb w "clear" = false ->
     RuleEngine.should_irrigate (RuleEngine.should_irrigate_rule c m w) = false) /\
  (RuleEngine.should_irrigate (RuleEngine.should_irrigate_rule c m "clear") = true
     <-> m < ADEQUATE_SOIL_MOISTURE_PERCENT c).
Proof.
  unfold RuleEngine.should_irrigate_rule, Qltb.
  assert (Hchain : forall w',
    RuleEngine.should_irrigate (RuleEngine.should_irrigate_rule c m w')
      = (String.eqb w' "clear" && negb (Qle_bool (ADEQUATE_SOIL_MOISTURE_PERCENT c) m))%bool
    /\ RuleEngine.confidence (RuleEngine.should_irrigate_rule c m w') = 1).
  { intros w'. unfold RuleEngine.should_irrigate_rule, Qltb.
    destruct (String.eqb w' "clear"), (Qle_bool (ADEQUATE_SOIL_MOISTURE_PERCENT c) m);
      simpl; auto. }
  unfold RuleEngine.should_irrigate_rule, Qltb in Hchain.
  destruct (Hchain w) as [H1 H2]. destruct (Hchain "clear"%string) as [H3 _].
  repeat split; try assumption.
  - intros Hw. rewrite H1, Hw. reflexivity.
  - rewrite H3. simpl. intros H.
    destruct (Qle_bool (ADEQUATE_SOIL_MOISTURE_PERCENT c) m) eqn:E; [discriminate|].
    apply Qnot_le_lt. intros Hle. apply Qle_bool_iff in Hle. congruence.
  - rewrite H3. simpl. intros H.
    destruct (Qle_bool (ADEQUATE_SOIL_MOISTURE_PERCENT c) m) eqn:E; [|reflexivity].
    apply Qle_bool_iff in E. exfalso. apply (Qlt_not_le _ _ H E).
Qed.

(** Claim C9: when the fuzzy computation raises, [evaluate_irrigation_need]
    returns the neutral score 50, hence [should_irrigate] is true
    (fail-open) and the confidence is 0. *)
Theorem fuzzy_fallback_fail_open (fe : FuzzyEngine.FuzzyEngine) (m : Q) (w : string)
    (Hraise : FuzzyEngine.irrigation_sim fe (FuzzyEngine.clamp_moisture m)
                (FuzzyEngine.weather_value w) = None) :
  FuzzyEngine.irrigation_need_score (FuzzyEngine.evaluate_irrigation_need fe m w) = 50 /\
  FuzzyEngine.should_irrigate (FuzzyEngine.evaluate_irrigation_need fe m w) = true /\
  FuzzyEngine.confidence (FuzzyEngine.evaluate_irrigation_need fe m w) == 0.
Proof.
  unfold FuzzyEngine.evaluate_irrigation_need. rewrite Hraise. simpl.
  split; [reflexivity | split; [reflexivity | reflexivity]].
Qed.

Lemma fuzzy_fallback_fail_open_witness :
  FuzzyEngine.irrigation_sim Samples.fe_fallback (FuzzyEngine.clamp_moisture 20)
    (FuzzyEngine.weather_value "clear") = None /\
  FuzzyEngine.irrigation_need_score
    (FuzzyEngine.evaluate_irrigation_need Samples.fe_fallback 20 "clear") = 50 /\
  FuzzyEngine.should_irrigate
    (FuzzyEngine.evaluate_irrigation_need Samples.fe_fallback 20 "clear") = true /\
  FuzzyEngine.confidence
    (FuzzyEngine.evaluate_irrigation_need Samples.fe_fallback 20 "clear") == 0.
Proof.
  split; [reflexivity|].
  apply (fuzzy_fallback_fail_open Samples.fe_fallback 20 "clear"). reflexivity.
Defined.

(** ** The repository's fuzzy score under a clear sky *)
Module CentroidProofs.
Import FuzzyEngine CentroidBounds.

Lemma Qle_bool_false_lt (a b : Q) : Qle_bool a b = false -> b < a.
Proof. intro H. apply Qnot_le_lt. intro H'. apply Qle_bool_iff in H'. congruence. Qed.

Ltac qbool :=
  repeat match goal with
  | |- context [Qeq_bool ?a ?b] =>
      let E := fresh "E" in destruct (Qeq_bool a b) eqn:E;
      [apply Qeq_bool_iff in E | apply Qeq_bool_neq in E]
  | |- context [Qle_bool ?a ?b] =>
      let E := fresh "E" in destruct (Qle_bool a b) eqn:E;
      [apply Qle_bool_iff in E | apply Qle_bool_false_lt in E]
  end; cbn beta iota delta [negb andb orb] in *.

Ltac qinv_consts :=
  repeat match goal with
  | |- context [Qinv (?n - ?m)] =>
      let v := eval vm_compute in (Qinv (n - m)) in change (Qinv (n - m)) with v
  end.

Ltac qclose :=
  first [ lra
        | match goal with H : ~ _ == _ |- _ => exfalso; apply H; lra end ].

Ltac trimf_tac :=
  unfold need_low, need_medium, need_high, soil_dry, soil_moderate, soil_wet,
    weather_clear, weather_rainy, trimf, Qltb;
  qbool; unfold Qdiv in *; qinv_consts; qclose.







Lemma need_high_nonneg (x : Q) : 0 <= need_high x.
Proof. trimf_tac. Qed.
















#[global] Instance Pm_Proper : Proper (Qeq ==> Qeq ==> Qeq ==> Qeq) Pm.
Proof. intros a a' Ha b b' Hb x x' Hx. unfold Pm. rewrite Ha, Hb, Hx. reflexivity. Qed.
































Lemma universe_has (n : nat) : (n <= 100)%nat -> In (inject_Z (Z.of_nat n)) irrigation_need_universe.
Proof. intros Hn. apply (in_map (fun n => inject_Z (Z.of_nat n))), in_seq. lia. Qed.

Lemma universe_30 : In 30 irrigation_need_universe.
Proof. exact (universe_has 30 ltac:(lia)). Qed.




















End CentroidProofs.




(** ** Irrigation controller entry points *)

Lemma start_irrigation_running (z : Z) (zc : ZoneConfig) (env : Env) (w : World) :
  is_running (irr w) = true ->
  Irrigation.start_irrigation z zc env w
  = (Ok (Irrigation.AlreadyRunning (current_zone (irr w))), w).
Proof.
  intros H. unfold Irrigation.start_irrigation, Irrigation.get_irr, bind, get, ret.
  rewrite H. reflexivity.
Qed.

Lemma start_irrigation_success_sets_zone (z : Z) (zc : ZoneConfig) (env : Env) (w : World)
    (r : Irrigation.StartResult) (w1 : World) :
  Irrigation.start_irrigation z zc env w = (Ok r, w1) ->
  Irrigation.success r = true ->
  is_running (irr w1) = true /\ current_zone (irr w1) = Some z.
Proof.
  unfold Irrigation.start_irrigation, Irrigation.get_irr, Irrigation.put_irr,
    Irrigation.read_weather, Irrigation.read_sensor, Irrigation.log_system,
    Irrigation.log_operation, try_except, bind, get, ask, ret, raise, emit, modify, now.
  destruct (is_running (irr w)).
  { intros H; inversion H; subst; discriminate. }
  destruct (weather_reading env (tick w)) as [cond|]; cbn.
  2: { intros H; inversion H; subst; discriminate. }
  destruct (String.eqb cond "clear"); cbn.
  2: { intros H; inversion H; subst; discriminate. }
  destruct (Irrigation.lookup_sensor (soil_moisture_sensors env) z) as [s|]; cbn.
  2: { intros H; inversion H; subst; discriminate. }
  destruct (s (tick w)) as [v|]; cbn.
  2: { intros H; inversion H. }
  match goal with |- context [if negb ?b then _ else _] => destruct b end; cbn.
  - intros H; inversion H; subst. auto.
  - intros H; inversion H; subst. discriminate.
Qed.

(** Claim C7: a second [start_irrigation] after a successful one, with no
    stop in between, returns [{success: false}] carrying the first call's
    zone and leaves the whole state unchanged: no thread is spawned and
    [is_running], [current_zone], [start_time] keep their values. *)
Theorem start_irrigation_rejects_second_call (z1 z2 : Z) (zc1 zc2 : ZoneConfig)
    (env : Env) (w : World) (r : Irrigation.StartResult) (w1 : World)
    (Hfirst : Irrigation.start_irrigation z1 zc1 env w = (Ok r, w1))
    (Hok : Irrigation.success r = true) :
  Irrigation.start_irrigation z2 zc2 env w1
    = (Ok (Irrigation.AlreadyRunning (Some z1)), w1) /\
  Irrigation.success (Irrigation.AlreadyRunning (Some z1)) = false.
Proof.
  destruct (start_irrigation_success_sets_zone z1 zc1 env w r w1 Hfirst Hok) as [Hrun Hz].
  split; [|reflexivity].
  rewrite (start_irrigation_running z2 zc2 env w1 Hrun), Hz. reflexivity.
Qed.

Lemma start_irrigation_rejects_second_call_witness :
  Irrigation.start_irrigation 2 Samples.zc1 Samples.env_zone0
    (snd (Irrigation.start_irrigation 1 Samples.zc1 Samples.env_zone0 Samples.world0))
  = (Ok (Irrigation.AlreadyRunning (Some 1%Z)),
     snd (Irrigation.start_irrigation 1 Samples.zc1 Samples.env_zone0 Samples.world0)) /\
  Irrigation.success (Irrigation.AlreadyRunning (Some 1%Z)) = false.
Proof.
  apply (start_irrigation_rejects_second_call 1 2 Samples.zc1 Samples.zc1 Samples.env_zone0
           Samples.world0
           (match fst (Irrigation.start_irrigation 1 Samples.zc1 Samples.env_zone0
                         Samples.world0) with
            | Ok r => r | Raise _ => Irrigation.WeatherReadFailed end)
           (snd (Irrigation.start_irrigation 1 Samples.zc1 Samples.env_zone0 Samples.world0)));
    vm_compute; reflexivity.
Defined.

(** ** Pressure maintenance *)

Lemma Qltb_true (a b : Q) : Qltb a b = true <-> a < b.
Proof.
  unfold Qltb. split.
  - intros H. destruct (Qle_bool b a) eqn:E; [discriminate|].
    apply Qnot_le_lt. intros Hle. apply Qle_bool_iff in Hle. congruence.
  - intros H. destruct (Qle_bool b a) eqn:E; [|reflexivity].
    apply Qle_bool_iff in E. exfalso. apply (Qlt_not_le _ _ H E).
Qed.

Lemma Qltb_false (a b : Q) : Qltb a b = false <-> b <= a.
Proof.
  unfold Qltb. split.
  - intros H. destruct (Qle_bool b a) eqn:E; [|discriminate]. apply Qle_bool_iff, E.
  - intros H. apply Qle_bool_iff in H. rewrite H. reflexivity.
Qed.

Lemma Qle_bool_false (a b : Q) : Qle_bool a b = false <-> b < a.
Proof.
  split.
  - intros H. apply Qnot_le_lt. intros Hle. apply Qle_bool_iff in Hle. congruence.
  - intros H. destruct (Qle_bool a b) eqn:E; [|reflexivity].
    apply Qle_bool_iff in E. exfalso. apply (Qlt_not_le _ _ H E).
Qed.

#[global] Arguments Qltb : simpl never.
#[global] Arguments Qabs : simpl never.
#[global] Arguments Qminus : simpl never.
#[global] Arguments Qplus : simpl never.
#[global] Arguments Qmult : simpl never.
#[global] Arguments Qle_bool : simpl never.

Ltac unfold_monad :=
  unfold bind, ask, get, ret, raise, modify, emit, sleep, next_tick, now, when,
    try_except, try_pass, write_pin in *.

(** Claim C3 (counterexample): the adjustment timestamp is recorded only
    when a call adjusts; two calls one second apart, both finding the
    pressure on target, both return ['stable'], not ['waiting']. *)
Lemma maintain_pressure_stable_not_waiting_cex :
  fst (PumpController.maintain_pressure IrrigationPump (Some 200) Samples.env_zone0
         (Samples.world_ctl 100)) = Ok (PumpController.Stable 200 200 0) /\
  fst (PumpController.maintain_pressure IrrigationPump (Some 200) Samples.env_zone0
         (snd (sleep 1 Samples.env_zone0
                 (snd (PumpController.maintain_pressure IrrigationPump (Some 200)
                         Samples.env_zone0 (Samples.world_ctl 100))))))
    = Ok (PumpController.Stable 200 200 0) /\
  1 < PUMP_ADJUSTMENT_INTERVAL_SEC (cfg Samples.env_zone0).
Proof. vm_compute. split; [reflexivity | split; reflexivity]. Qed.

(** Claim C3 (amended): the case analysis of [maintain_pressure]. Not
    controlling: ['not_controlling'], nothing changes. Less than
    [PUMP_ADJUSTMENT_INTERVAL_SEC] since the last recorded adjustment:
    ['waiting'], nothing changes. Otherwise, with [diff] the target minus
    the reading (the argument, or the pump's own value when [None]):
    within [PUMP_PRESSURE_TOLERANCE_KPA], ['stable'] and nothing changes;
    beyond it, ['adjusted'] with [new_target = target + 0.5 * diff] pushed
    to the pump, the timestamp recorded (the controller's own target is
    left as it was), so that a call less than the interval later waits.
    The timestamp is recorded on adjustments only. *)
Theorem maintain_pressure_case_analysis (p : PumpId) (cur : option Q) (env : Env) (w : World) :
  let c := pctl w p in
  let r := fst (PumpController.maintain_pressure p cur env w) in
  let w' := snd (PumpController.maintain_pressure p cur env w) in
  let reading := match cur with
                 | Some x => x
                 | None => if is_pump_running (pumps w p)
                           then pump_target_pressure (pumps w p) else 0
                 end in
  let diff := target_pressure_kpa c - reading in
  let new_target := target_pressure_kpa c + diff * (1 # 2) in
  (is_controlling c = false -> r = Ok PumpController.NotControlling /\ w' = w) /\
  (is_controlling c = true ->
   clock w - last_adjustment_time c < PUMP_ADJUSTMENT_INTERVAL_SEC (cfg env) ->
   r = Ok PumpController.Waiting /\ w' = w) /\
  (is_controlling c = true ->
   PUMP_ADJUSTMENT_INTERVAL_SEC (cfg env) <= clock w - last_adjustment_time c ->
   Qabs diff <= PUMP_PRESSURE_TOLERANCE_KPA (cfg env) ->
   r = Ok (PumpController.Stable reading (target_pressure_kpa c) diff) /\ w' = w) /\
  (is_controlling c = true ->
   PUMP_ADJUSTMENT_INTERVAL_SEC (cfg env) <= clock w - last_adjustment_time c ->
   PUMP_PRESSURE_TOLERANCE_KPA (cfg env) < Qabs diff ->
   hw_fault env (GpioPump p) (tick w) = false ->
   r = Ok (PumpController.Adjusted reading (target_pressure_kpa c) new_target diff) /\
   pump_target_pressure (pumps w' p) = new_target /\
   In (ESetPressure p new_target) (trace w') /\
   last_adjustment_time (pctl w' p) = clock w /\
   target_pressure_kpa (pctl w' p) = target_pressure_kpa c /\
   is_controlling (pctl w' p) = true /\
   clock w' = clock w /\
   (forall (dt : Q) (cur2 : option Q), dt < PUMP_ADJUSTMENT_INTERVAL_SEC (cfg env) ->
      fst (PumpController.maintain_pressure p cur2 env (snd (sleep dt env w')))
      = Ok PumpController.Waiting)).
Proof.
  intros c r w' reading diff new_target.
  subst c r w' reading diff new_target.
  destruct p; (split; [|split; [|split]]).
  all: unfold PumpController.maintain_pressure, PumpController.get_ctl; unfold_monad; cbn.
  all: intros Hc; rewrite Hc; cbn.
  1, 5: split; reflexivity.
  1, 4: intros Hlt; apply Qltb_true in Hlt; rewrite Hlt; cbn; split; reflexivity.
  all: intros Hge; rewrite (proj2 (Qltb_false _ _) Hge); cbn.
  all: unfold PumpInterface.get_current_pressure; unfold_monad; cbn.
  all: destruct cur as [x|]; cbn;
       [| match goal with |- context [is_pump_running (pumps ?ww ?q)] =>
            destruct (is_pump_running (pumps ww q)) eqn:Hp end; cbn].
  all: try (intros Hs; apply Qle_bool_iff in Hs; rewrite Hs; cbn; split; reflexivity).
  all: intros Hs Hf; apply Qle_bool_false in Hs; rewrite Hs; cbn.
  all: match goal with |- context [if ?b then PumpInterface.start _ else _] => destruct b end;
       unfold PumpInterface.start; unfold_monad; cbn; try rewrite Hf; cbn.
  all: match goal with
       | |- context [if ?b then PumpController.update_mock_pressure_sensor _ _ else _] =>
           destruct b
       end;
       unfold PumpController.update_mock_pressure_sensor, PumpController.get_ctl,
         PumpController.put_ctl; unfold_monad; cbn.
  all: try (match goal with |- context [if has_mock_sensor ?e ?q then _ else _] =>
              destruct (has_mock_sensor e q) end; cbn).
  all: split; [reflexivity|].
  all: split; [reflexivity|].
  all: split; [rewrite <- ?app_assoc; apply in_or_app; right; cbn; auto|].
  all: split; [reflexivity|].
  all: split; [reflexivity|].
  all: split; [assumption|].
  all: split; [reflexivity|].
  all: intros dt cur2 Hdt; rewrite Hc; cbn.
  all: match goal with |- context [Qltb ?a ?b] =>
         replace (Qltb a b) with true by (symmetry; apply Qltb_true; lra) end.
  all: reflexivity.
Qed.


(** The status [maintain_pressure] reports for a reading [cur] once the
    rate limit has passed. *)
Lemma maintain_pressure_some_step (p : PumpId) (cur : Q) (env : Env) (w : World) :
  is_controlling (pctl w p) = true ->
  PUMP_ADJUSTMENT_INTERVAL_SEC (cfg env) <= clock w - last_adjustment_time (pctl w p) ->
  hw_fault env (GpioPump p) (tick w) = false ->
  let d := target_pressure_kpa (pctl w p) - cur in
  let w' := snd (PumpController.maintain_pressure p (Some cur) env w) in
  fst (PumpController.maintain_pressure p (Some cur) env w)
    = Ok (if Qle_bool (Qabs d) (PUMP_PRESSURE_TOLERANCE_KPA (cfg env))
          then PumpController.Stable cur (target_pressure_kpa (pctl w p)) d
          else PumpController.Adjusted cur (target_pressure_kpa (pctl w p))
                 (target_pressure_kpa (pctl w p) + d * (1 # 2)) d) /\
  is_controlling (pctl w' p) = true /\
  target_pressure_kpa (pctl w' p) = target_pressure_kpa (pctl w p) /\
  (last_adjustment_time (pctl w' p) = last_adjustment_time (pctl w p)
   \/ last_adjustment_time (pctl w' p) = clock w) /\
  clock w' = clock w /\ tick w' = tick w.
Proof.
  intros Hc Hge Hf d w'. subst d w'.
  destruct p; unfold PumpController.maintain_pressure, PumpController.get_ctl;
    unfold_monad; cbn; rewrite Hc; cbn; rewrite (proj2 (Qltb_false _ _) Hge); cbn.
  all: match goal with |- context [Qle_bool ?a ?b] =>
         destruct (Qle_bool a b) eqn:Hs end; cbn.
  1, 3: repeat split; auto.
  all: unfold_monad; cbn.
  all: match goal with |- context [if ?b then PumpInterface.start _ else _] => destruct b end;
       unfold PumpInterface.start; unfold_monad; cbn; try rewrite Hf; cbn.
  all: match goal with
       | |- context [if ?b then PumpController.update_mock_pressure_sensor _ _ else _] =>
           destruct b
       end;
       unfold PumpController.update_mock_pressure_sensor, PumpController.get_ctl,
         PumpController.put_ctl; unfold_monad; cbn.
  all: try (match goal with |- context [if has_mock_sensor ?e ?q then _ else _] =>
              destruct (has_mock_sensor e q) end; cbn).
  all: repeat split; auto.
Qed.

(** Claim C2 (counterexample): the controller's own target never moves,
    so with target 200 kPa and a fixed reading of 100 kPa, calls spaced by
    [PUMP_ADJUSTMENT_INTERVAL_SEC] all adjust with the same gap of 100 kPa
    (each pushing 250 kPa to the pump); the gap never shrinks and no call
    reports ['stable']. *)
Lemma maintain_pressure_no_convergence_cex :
  PUMP_ADJUSTMENT_INTERVAL_SEC (cfg Samples.env_zone0) = 2 /\
  fst (PumpController.maintain_loop IrrigationPump 100 2 3 Samples.env_zone0
         (Samples.world_ctl 100))
  = Ok [PumpController.Adjusted 100 200 (500 # 2) 100;
        PumpController.Adjusted 100 200 (500 # 2) 100;
        PumpController.Adjusted 100 200 (500 # 2) 100].
Proof. vm_compute. split; reflexivity. Qed.

(** Claim C2 (amended): with a fixed reading and calls spaced by
    [PUMP_ADJUSTMENT_INTERVAL_SEC], every call sees the same gap
    [target - current] (the controller's target is never updated) and
    returns the same status: ['stable'] at every call when the gap is
    within [PUMP_PRESSURE_TOLERANCE_KPA], ['adjusted'] with the same
    [new_target] at every call otherwise. *)
Theorem maintain_pressure_fixed_reading (p : PumpId) (cur : Q) (n : nat) (env : Env)
    (w : World)
    (Hc : is_controlling (pctl w p) = true)
    (Hi : 0 <= PUMP_ADJUSTMENT_INTERVAL_SEC (cfg env))
    (Hlast : PUMP_ADJUSTMENT_INTERVAL_SEC (cfg env) <= clock w - last_adjustment_time (pctl w p))
    (Hf : hw_fault env (GpioPump p) (tick w) = false) :
  let d := target_pressure_kpa (pctl w p) - cur in
  fst (PumpController.maintain_loop p cur (PUMP_ADJUSTMENT_INTERVAL_SEC (cfg env)) n env w)
  = Ok (repeat (if Qle_bool (Qabs d) (PUMP_PRESSURE_TOLERANCE_KPA (cfg env))
                then PumpController.Stable cur (target_pressure_kpa (pctl w p)) d
                else PumpController.Adjusted cur (target_pressure_kpa (pctl w p))
                       (target_pressure_kpa (pctl w p) + d * (1 # 2)) d) n).
Proof.
  intros d. subst d.
  revert w Hc Hlast Hf. induction n as [|n IH]; intros w Hc Hlast Hf.
  - reflexivity.
  - cbn [PumpController.maintain_loop].
    destruct (maintain_pressure_some_step p cur env w Hc Hlast Hf)
      as (Hst & Hc' & Ht' & Hl' & Hclk' & Htick').
    unfold bind at 1.
    destruct (PumpController.maintain_pressure p (Some cur) env w) as [r w1] eqn:E.
    cbn in Hst, Hc', Ht', Hl', Hclk', Htick'. subst r.
    unfold sleep, modify, bind at 1. cbn.
    set (w2 := {| irr := irr w1; fert := fert w1; pctl := pctl w1; pumps := pumps w1;
                  valve_states := valve_states w1; valve_current_zone := valve_current_zone w1;
                  tank_open := tank_open w1; trace := trace w1;
                  clock := clock w1 + PUMP_ADJUSTMENT_INTERVAL_SEC (cfg env);
                  tick := tick w1 |}).
    assert (Hlast2 : PUMP_ADJUSTMENT_INTERVAL_SEC (cfg env)
                     <= clock w2 - last_adjustment_time (pctl w2 p)).
    { subst w2; cbn. rewrite Hclk'.
      destruct Hl' as [Hl' | Hl']; rewrite Hl'; lra. }
    specialize (IH w2 Hc' Hlast2). rewrite <- Htick' in Hf. specialize (IH Hf).
    assert (Ht2 : target_pressure_kpa (pctl w2 p) = target_pressure_kpa (pctl w p))
      by (unfold w2; cbn; exact Ht').
    rewrite Ht2 in IH.
    unfold bind at 1.
    destruct (PumpController.maintain_loop p cur (PUMP_ADJUSTMENT_INTERVAL_SEC (cfg env)) n
                env w2) as [r2 w3] eqn:E2.
    cbn in IH. rewrite IH. reflexivity.
Qed.

Lemma maintain_pressure_fixed_reading_witness :
  is_controlling (pctl (Samples.world_ctl 100) IrrigationPump) = true /\
  0 <= PUMP_ADJUSTMENT_INTERVAL_SEC (cfg Samples.env_zone0) /\
  PUMP_ADJUSTMENT_INTERVAL_SEC (cfg Samples.env_zone0)
    <= clock (Samples.world_ctl 100)
       - last_adjustment_time (pctl (Samples.world_ctl 100) IrrigationPump) /\
  hw_fault Samples.env_zone0 (GpioPump IrrigationPump) (tick (Samples.world_ctl 100)) = false /\
  let w := Samples.world_ctl 100 in
  let d := target_pressure_kpa (pctl w IrrigationPump) - 100 in
  fst (PumpController.maintain_loop IrrigationPump 100
         (PUMP_ADJUSTMENT_INTERVAL_SEC (cfg Samples.env_zone0)) 3 Samples.env_zone0 w)
  = Ok (repeat (if Qle_bool (Qabs d) (PUMP_PRESSURE_TOLERANCE_KPA (cfg Samples.env_zone0))
                then PumpController.Stable 100 (target_pressure_kpa (pctl w IrrigationPump)) d
                else PumpController.Adjusted 100 (target_pressure_kpa (pctl w IrrigationPump))
                       (target_pressure_kpa (pctl w IrrigationPump) + d * (1 # 2)) d) 3).
Proof.
  split; [reflexivity|]. split; [vm_compute; discriminate|].
  split; [vm_compute; discriminate|]. split; [reflexivity|].
  apply (maintain_pressure_fixed_reading IrrigationPump 100 3 Samples.env_zone0
           (Samples.world_ctl 100));
    [reflexivity | vm_compute; discriminate | vm_compute; discriminate | reflexivity].
Defined.

(** ** Failure handling and cycle state *)

(** Claim C1 (divergence): zone 1 at 20 % moisture under a clear sky; the
    irrigation pump's GPIO pin starts failing after the pump was started,
    so the cleanup's pump stop raises when moisture reaches 61 %. The
    exception handler of [_irrigation_cycle] logs [FAILED] and clears
    [is_running] and [current_zone], but issues no further command: zone 1's
    valve stays open and the pump stays running. *)
Theorem irrigation_cycle_failure_leaves_actuators :
  let r := Irrigation.run_irrigation 1 Samples.zc1 Samples.env_cleanup_fault Samples.world0 in
  Irrigation.success (match fst r with Ok s => s | Raise _ => Irrigation.WeatherReadFailed end)
    = true /\
  skipn 8 (trace (snd r))
    = [ESysLog INFO; EPumpStop IrrigationPump; ESysLog ERROR;
       EOpLog IRRIGATION (Some 1%Z) FAILED] /\
  is_running (irr (snd r)) = false /\
  current_zone (irr (snd r)) = None /\
  Valves.is_open (snd r) 1 = true /\
  is_pump_running (pumps (snd r) IrrigationPump) = true.
Proof.
  vm_compute. repeat split; reflexivity.
Qed.

(** Claim C4 (divergence): zone 1 has a soil sensor, the weather is read as
    ['clear'], and the soil sensor's read raises: [start_irrigation]
    propagates the exception instead of returning [{success: false}],
    since the soil read is not wrapped like the weather read. *)
Theorem start_irrigation_soil_read_propagates :
  weather_reading Samples.env_soil_fault 0 = Some "clear"%string /\
  Irrigation.lookup_sensor (soil_moisture_sensors Samples.env_soil_fault) 1 <> None /\
  fst (Irrigation.start_irrigation 1 Samples.zc1 Samples.env_soil_fault Samples.world0)
    = Raise ValueError.
Proof.
  split; [reflexivity|]. split; [discriminate|]. vm_compute. reflexivity.
Qed.

(** Claim C6 (divergence): zone id 0 is falsy in Python. After
    [start_irrigation(0)] succeeds, [stop_irrigation] clears [is_running]
    but skips the cleanup guarded by [if self.current_zone:], leaving
    [current_zone == 0] with [is_running == False]; [stop_fertigation]
    does the same after [start_fertigation(0)]. *)
Theorem zone_zero_breaks_cycle_state_invariant :
  let s := Irrigation.start_irrigation 0 Samples.zc1 Samples.env_zone0 Samples.world0 in
  let t := Irrigation.stop_irrigation Samples.env_zone0 (snd s) in
  let fs := Fertigation.start_fertigation 0 Samples.env_zone0 Samples.world0 in
  let ft := Fertigation.stop_fertigation Samples.env_zone0 (snd fs) in
  Irrigation.success (match fst s with Ok r => r | Raise _ => Irrigation.WeatherReadFailed end)
    = true /\
  fst t = Ok Irrigation.IrrigationStopped /\
  is_running (irr (snd t)) = false /\ current_zone (irr (snd t)) = Some 0%Z /\
  fst fs = Ok (Fertigation.Started 0) /\
  fst ft = Ok Fertigation.FertigationStopped /\
  is_running (fert (snd ft)) = false /\ current_zone (fert (snd ft)) = Some 0%Z.
Proof.
  vm_compute. repeat split; reflexivity.
Qed.

(** ** Ordering of actuator commands: a program logic over [Ordering.wp] *)

Section WP.
Context {S : Type} (stp : S -> Event -> option S) (env : Env).

Lemma scan_with_app (s : S) (l1 l2 : list Event) :
  Ordering.scan_with stp s (l1 ++ l2)
  = match Ordering.scan_with stp s l1 with
    | Some s1 => Ordering.scan_with stp s1 l2
    | None => None
    end.
Proof.
  revert s. induction l1 as [|e l1 IH]; intros s; cbn; [reflexivity|].
  destruct (stp s e); [apply IH | reflexivity].
Qed.

Lemma wp_ret {A} (a : A) Q w s : Q (Ok a) w s -> Ordering.wp stp env (ret a) Q w s.
Proof. intros H. exists [], s. cbn. rewrite app_nil_r. auto. Qed.

Lemma wp_raise {A} (e : Exn) (Q : Res A -> World -> S -> Prop) w s :
  Q (Raise e) w s -> Ordering.wp stp env (raise e) Q w s.
Proof. intros H. exists [], s. cbn. rewrite app_nil_r. auto. Qed.

Lemma wp_get Q w s : Q (Ok w) w s -> Ordering.wp stp env get Q w s.
Proof. intros H. exists [], s. cbn. rewrite app_nil_r. auto. Qed.

Lemma wp_ask Q w s : Q (Ok env) w s -> Ordering.wp stp env ask Q w s.
Proof. intros H. exists [], s. cbn. rewrite app_nil_r. auto. Qed.

Lemma wp_modify f Q w s :
  trace (f w) = trace w -> Q (Ok tt) (f w) s -> Ordering.wp stp env (modify f) Q w s.
Proof. intros Ht H. exists [], s. cbn. rewrite app_nil_r. auto. Qed.

Lemma wp_emit e Q w s s' :
  stp s e = Some s' ->
  Q (Ok tt) (mkWorld (irr w) (fert w) (pctl w) (pumps w) (valve_states w)
               (valve_current_zone w) (tank_open w) (trace w ++ [e]) (clock w) (tick w)) s' ->
  Ordering.wp stp env (emit e) Q w s.
Proof. intros Hs H. exists [e], s'. cbn. rewrite Hs. auto. Qed.

Lemma wp_write_pin op Q w s :
  Q (Ok tt) w s -> Q (Raise (GpioError op)) w s -> Ordering.wp stp env (write_pin op) Q w s.
Proof.
  intros H1 H2. exists [], s. unfold write_pin.
  destruct (hw_fault env op (tick w)); cbn; rewrite app_nil_r; auto.
Qed.

Lemma wp_bind {A B} (m : M A) (k : A -> M B) Q w s :
  Ordering.wp stp env m
    (fun r w1 s1 => match r with
                    | Ok a => Ordering.wp stp env (k a) Q w1 s1
                    | Raise e => Q (Raise e) w1 s1
                    end) w s ->
  Ordering.wp stp env (bind m k) Q w s.
Proof.
  intros (tr1 & s1 & Ht1 & Hs1 & HQ). unfold Ordering.wp, bind; cbv beta.
  destruct (m env w) as [[a|e] w1]; simpl in *.
  - destruct HQ as (tr2 & s2 & Ht2 & Hs2 & HQ2).
    exists (tr1 ++ tr2), s2. rewrite Ht2, Ht1, app_assoc, scan_with_app, Hs1. auto.
  - exists tr1, s1. auto.
Qed.

Lemma wp_try {A} (m : M A) (h : Exn -> M A) Q w s :
  Ordering.wp stp env m
    (fun r w1 s1 => match r with
                    | Ok a => Q (Ok a) w1 s1
                    | Raise e => Ordering.wp stp env (h e) Q w1 s1
                    end) w s ->
  Ordering.wp stp env (try_except m h) Q w s.
Proof.
  intros (tr1 & s1 & Ht1 & Hs1 & HQ). unfold Ordering.wp, try_except; cbv beta.
  destruct (m env w) as [[a|e] w1]; simpl in *.
  - exists tr1, s1. auto.
  - destruct HQ as (tr2 & s2 & Ht2 & Hs2 & HQ2).
    exists (tr1 ++ tr2), s2. rewrite Ht2, Ht1, app_assoc, scan_with_app, Hs1. auto.
Qed.

Lemma wp_conseq {A} (m : M A) (Q1 Q2 : Res A -> World -> S -> Prop) w s :
  Ordering.wp stp env m Q1 w s ->
  (forall r w' s', Q1 r w' s' -> Q2 r w' s') ->
  Ordering.wp stp env m Q2 w s.
Proof. intros (tr & s' & H1 & H2 & H3) HQ. exists tr, s'. auto. Qed.

End WP.

(** One step of the calculus: the rule of the head combinator, or a case
    split on the condition in head position. *)
Ltac wp_step :=
  match goal with
  | |- Ordering.wp _ _ (bind _ _) _ _ _ => apply wp_bind
  | |- Ordering.wp _ _ (try_except _ _) _ _ _ => apply wp_try
  | |- Ordering.wp _ _ (try_pass _) _ _ _ => unfold try_pass; apply wp_try
  | |- Ordering.wp _ _ (ret _) _ _ _ => apply wp_ret
  | |- Ordering.wp _ _ (raise _) _ _ _ => apply wp_raise
  | |- Ordering.wp _ _ get _ _ _ => apply wp_get
  | |- Ordering.wp _ _ ask _ _ _ => apply wp_ask
  | |- Ordering.wp _ _ (modify _) _ _ _ => apply wp_modify; [reflexivity|]
  | |- Ordering.wp _ _ (emit _) _ _ ?s =>
      try (is_var s; destruct s); eapply wp_emit; [reflexivity|]
  | |- Ordering.wp _ _ (write_pin _) _ _ _ => apply wp_write_pin
  | |- Ordering.wp _ _ (sleep _) _ _ _ => unfold sleep; apply wp_modify; [reflexivity|]
  | |- Ordering.wp _ _ next_tick _ _ _ => unfold next_tick; apply wp_modify; [reflexivity|]
  | |- Ordering.wp _ _ now _ _ _ => unfold now
  | |- Ordering.wp _ _ (when ?b _) _ _ _ => unfold when; destruct b eqn:?
  | |- Ordering.wp _ _ (if ?b then _ else _) _ _ _ => destruct b eqn:?
  | |- Ordering.wp _ _ (match ?x with _ => _ end) _ _ _ => destruct x eqn:?
  end; cbn beta iota.

#[global] Arguments Ordering.wp : simpl never.
#[global] Arguments bind : simpl never.
#[global] Arguments try_except : simpl never.
#[global] Arguments try_pass : simpl never.
#[global] Arguments ret : simpl never.
#[global] Arguments raise : simpl never.
#[global] Arguments modify : simpl never.
#[global] Arguments emit : simpl never.
#[global] Arguments write_pin : simpl never.
#[global] Arguments when : simpl never.
#[global] Arguments sleep : simpl never.
#[global] Arguments next_tick : simpl never.

Ltac wp_unfold :=
  unfold PumpController.update_mock_pressure_sensor, PumpController.get_ctl,
    PumpController.put_ctl, PumpInterface.start, PumpInterface.stop,
    PumpInterface.set_pressure, PumpInterface.is_running_pump,
    PumpInterface.get_current_pressure, Valves.open_valve, Valves.close_valve,
    Irrigation.get_irr, Irrigation.put_irr, Irrigation.clear_running,
    Irrigation.log_operation, Irrigation.log_system, Irrigation.read_sensor,
    Irrigation.read_weather, Irrigation.read_pressure, Irrigation.moisture_check, key.

Ltac wp_run := repeat (first [wp_step | progress wp_unfold]; cbn).

Lemma fert_stop_all_pumps_ordered (env : Env) (w : World) :
  Ordering.wp Ordering.fstep env Fertigation.stop_all_pumps
    (fun r _ s => r = Ok tt /\ s = (false, false)) w
    (fert_has_fertilizer_pump env, fert_has_irrigation_pump env).
Proof.
  unfold Fertigation.stop_all_pumps, PumpController.stop_pressure_control,
    PumpController.get_ctl, PumpController.put_ctl, PumpInterface.stop.
  wp_run. all: auto.
Qed.

Lemma fert_stop_cleanup_ordered (env : Env) (z : Z) (w : World) :
  Ordering.wp Ordering.fstep env (Fertigation.stop_cleanup z) (fun _ _ _ => True) w
    (fert_has_fertilizer_pump env, fert_has_irrigation_pump env).
Proof.
  unfold Fertigation.stop_cleanup. apply wp_bind.
  eapply wp_conseq; [apply fert_stop_all_pumps_ordered|].
  intros r w' s' [-> ->]. cbn.
  unfold Fertigation.close_all_tank, Fertigation.close_tank, Valves.close_zone,
    Valves.close_valve, Fertigation.read_tank_level, Fertigation.log_operation,
    Fertigation.clear_running, Fertigation.get_fert, Fertigation.put_fert.
  wp_run. all: auto.
Qed.

Lemma fert_failure_cleanup_ordered (env : Env) (z : Z) (w : World) :
  Ordering.wp Ordering.fstep env (Fertigation.failure_cleanup z) (fun _ _ _ => True) w
    (fert_has_fertilizer_pump env, fert_has_irrigation_pump env).
Proof.
  unfold Fertigation.failure_cleanup, Fertigation.log_system, Fertigation.log_operation.
  do 2 (apply wp_bind; eapply wp_emit; [reflexivity|]; cbn).
  apply wp_bind.
  eapply wp_conseq; [apply fert_stop_all_pumps_ordered|].
  intros r w' s' [-> ->]. cbn.
  unfold Fertigation.close_all_tank, Fertigation.close_tank, Valves.close_zone,
    Valves.close_valve, Fertigation.clear_running, Fertigation.get_fert, Fertigation.put_fert.
  wp_run. all: auto.
Qed.

Section IrrigationCleanupOrdering.
Variable z : Z.
Variable env : Env.

(** [_stop_irrigation] stops the pump before it closes the valve, from any
    scanner state. *)
Lemma stop_cleanup_ordered (z0 : Z) (m : Q) (w : World) (s : bool * bool) :
  Ordering.wp (Ordering.step z) env (Irrigation.stop_cleanup z0 m)
    (fun _ _ _ => True) w s.
Proof.
  destruct s as [pon vop].
  unfold Irrigation.stop_cleanup, PumpController.stop_pressure_control, Valves.close_zone.
  wp_run. all: auto.
Qed.

End IrrigationCleanupOrdering.


(** ** Further properties of the code *)

Lemma normalized_weights (rw fw : Q) :
  0 <= rw -> 0 <= fw -> 0 < rw + fw ->
  0 <= rw / (rw + fw) /\ 0 <= fw / (rw + fw) /\ rw / (rw + fw) + fw / (rw + fw) == 1.
Proof.
  intros Hr Hf Ht. split; [|split].
  - apply Qle_shift_div_l; [exact Ht|]. lra.
  - apply Qle_shift_div_l; [exact Ht|]. lra.
  - field. intro H. lra.
Qed.

Lemma convex_unit (x y a b : Q) :
  0 <= x <= 1 -> 0 <= y <= 1 -> 0 <= a -> 0 <= b -> a + b == 1 ->
  0 <= x * a + y * b <= 1.
Proof.
  intros [Hx0 Hx1] [Hy0 Hy1] Ha Hb Hab.
  assert (H1 : x * a <= 1 * a) by (apply Qmult_le_compat_r; assumption).
  assert (H2 : y * b <= 1 * b) by (apply Qmult_le_compat_r; assumption).
  assert (H3 : 0 * a <= x * a) by (apply Qmult_le_compat_r; assumption).
  assert (H4 : 0 * b <= y * b) by (apply Qmult_le_compat_r; assumption).
  lra.
Qed.

Lemma hybrid_init_weights (rw fw : Q) (fe : FuzzyEngine.FuzzyEngine) :
  0 < rw + fw ->
  HybridEngine.rule_weight (HybridEngine.init rw fw fe) = rw / (rw + fw) /\
  HybridEngine.fuzzy_weight (HybridEngine.init rw fw fe) = fw / (rw + fw).
Proof.
  intro Ht. unfold HybridEngine.init.
  assert (Hb : Qltb 0 (rw + fw) = true) by (apply Qltb_true; exact Ht).
  rewrite Hb. split; reflexivity.
Qed.

(** [RuleEngine.calculate_irrigation_duration], called through
    [HybridEngine.calculate_irrigation_duration]: for a positive area the
    duration is never negative, and it is zero exactly when there is no
    moisture deficit or the flow rate is not positive. *)
Theorem calculate_irrigation_duration_sign (he : HybridEngine.HybridEngine)
    (cur tgt area flow : Q) (Harea : 0 < area) :
  0 <= HybridEngine.calculate_irrigation_duration he cur tgt area flow /\
  (HybridEngine.calculate_irrigation_duration he cur tgt area flow == 0 <->
   tgt <= cur \/ flow <= 0).
Proof.
  unfold HybridEngine.calculate_irrigation_duration, RuleEngine.calculate_irrigation_duration.
  destruct (Qle_bool (tgt - cur) 0) eqn:H1.
  - apply Qle_bool_iff in H1. split; [lra|]. split; intros; [left; lra|lra].
  - apply Qle_bool_false in H1.
    destruct (Qle_bool flow 0) eqn:H2.
    + apply Qle_bool_iff in H2. split; [lra|]. split; intros; [right; lra|lra].
    + apply Qle_bool_false in H2.
      assert (Hp : 0 < (tgt - cur) / 100 * area * 10 / flow * 60).
      { apply Qmult_lt_0_compat; [|lra].
        apply Qmult_lt_0_compat; [|apply Qinv_lt_0_compat; exact H2].
        apply Qmult_lt_0_compat; [|lra].
        apply Qmult_lt_0_compat; [|exact Harea].
        apply Qmult_lt_0_compat; [exact H1|]. reflexivity. }
      split; [lra|]. split; intro H; [lra|destruct H; lra].
Qed.

Lemma calculate_irrigation_duration_sign_witness :
  0 < 50 /\
  0 <= HybridEngine.calculate_irrigation_duration (HybridEngine.default_engine Samples.fe_fallback)
         20 60 50 10 /\
  (HybridEngine.calculate_irrigation_duration (HybridEngine.default_engine Samples.fe_fallback)
     20 60 50 10 == 0 <-> 60 <= 20 \/ 10 <= 0).
Proof.
  split; [lra|].
  apply (calculate_irrigation_duration_sign _ 20 60 50 10). lra.
Defined.

(** [HybridEngine.should_irrigate] with weights normalised by [__init__]
    from non-negative weights of positive sum: the weighted vote lies in
    [0, 1], and when the rule engine and the fuzzy engine agree the hybrid
    decision is their common decision. *)
Theorem hybrid_agreeing_votes (c : Config) (rw fw : Q) (fe : FuzzyEngine.FuzzyEngine)
    (m : Q) (wc : string) (Hrw : 0 <= rw) (Hfw : 0 <= fw) (Ht : 0 < rw + fw) :
  let d := HybridEngine.should_irrigate_hybrid c (HybridEngine.init rw fw fe) m wc in
  0 <= HybridEngine.weighted_vote d <= 1 /\
  (RuleEngine.should_irrigate (HybridEngine.rule_decision d) =
   FuzzyEngine.should_irrigate (HybridEngine.fuzzy_decision d) ->
   HybridEngine.should_irrigate d = RuleEngine.should_irrigate (HybridEngine.rule_decision d)).
Proof.
  destruct (normalized_weights rw fw Hrw Hfw Ht) as (Ha & Hb & Hab).
  destruct (hybrid_init_weights rw fw fe Ht) as [Er Ef].
  cbv zeta. unfold HybridEngine.should_irrigate_hybrid. cbn [HybridEngine.weighted_vote
    HybridEngine.should_irrigate HybridEngine.rule_decision HybridEngine.fuzzy_decision].
  rewrite Er, Ef.
  set (a := rw / (rw + fw)) in *. set (b := fw / (rw + fw)) in *.
  destruct (RuleEngine.should_irrigate _), (FuzzyEngine.should_irrigate _).
  - split; [lra|]. intros _. apply Qle_bool_iff. lra.
  - split; [lra|]. discriminate.
  - split; [lra|]. discriminate.
  - split; [lra|]. intros _. apply Qle_bool_false. lra.
Qed.

Lemma hybrid_agreeing_votes_witness :
  0 <= 4 # 10 /\ 0 <= 6 # 10 /\ 0 < (4 # 10) + (6 # 10) /\
  (let d := HybridEngine.should_irrigate_hybrid default_config
              (HybridEngine.init (4 # 10) (6 # 10) Samples.fe_fallback) 20 "clear" in
   0 <= HybridEngine.weighted_vote d <= 1 /\
   (RuleEngine.should_irrigate (HybridEngine.rule_decision d) =
    FuzzyEngine.should_irrigate (HybridEngine.fuzzy_decision d) ->
    HybridEngine.should_irrigate d = RuleEngine.should_irrigate (HybridEngine.rule_decision d))).
Proof.
  split; [lra|]. split; [lra|]. split; [lra|].
  apply hybrid_agreeing_votes; lra.
Defined.

Lemma rule_confidence_unit (c : Config) (m : Q) (wc : string) :
  0 <= RuleEngine.confidence (RuleEngine.should_irrigate_rule c m wc) <= 1.
Proof.
  unfold RuleEngine.should_irrigate_rule.
  destruct (negb _); [cbn; lra|].
  destruct (Qle_bool _ _); [cbn; lra|].
  destruct (Qltb _ _); cbn; lra.
Qed.

Lemma fuzzy_confidence_unit (s : Q) : 0 <= s <= 100 -> 0 <= Qabs (s - 50) / 50 <= 1.
Proof.
  intro Hs.
  assert (Hq : 0 <= Qabs (s - 50) <= 50).
  { split; [apply Qabs_nonneg|]. apply Qabs_Qle_condition. lra. }
  split.
  - apply Qle_shift_div_l; [reflexivity|]. lra.
  - apply Qle_shift_div_r; [reflexivity|]. lra.
Qed.

(** [HybridEngine.should_irrigate]: with weights normalised from
    non-negative weights of positive sum, and a fuzzy simulation whose
    scores stay in the [irrigation_need] universe [0, 100], the combined
    confidence lies in [0, 1]. *)
Theorem hybrid_confidence_bounds (c : Config) (rw fw : Q) (fe : FuzzyEngine.FuzzyEngine)
    (m : Q) (wc : string) (Hrw : 0 <= rw) (Hfw : 0 <= fw) (Ht : 0 < rw + fw)
    (Hsim : forall a b s, FuzzyEngine.irrigation_sim fe a b = Some s -> 0 <= s <= 100) :
  0 <= HybridEngine.confidence
         (HybridEngine.should_irrigate_hybrid c (HybridEngine.init rw fw fe) m wc) <= 1.
Proof.
  destruct (normalized_weights rw fw Hrw Hfw Ht) as (Ha & Hb & Hab).
  destruct (hybrid_init_weights rw fw fe Ht) as [Er Ef].
  unfold HybridEngine.should_irrigate_hybrid. cbn [HybridEngine.confidence].
  rewrite Er, Ef.
  apply convex_unit; try assumption; [apply rule_confidence_unit|].
  unfold FuzzyEngine.evaluate_irrigation_need. cbn [FuzzyEngine.confidence].
  assert (Efe : HybridEngine.fuzzy_engine (HybridEngine.init rw fw fe) = fe)
    by (unfold HybridEngine.init; destruct (Qltb _ _); reflexivity).
  rewrite Efe.
  destruct (FuzzyEngine.irrigation_sim fe _ _) eqn:E.
  - apply fuzzy_confidence_unit. exact (Hsim _ _ _ E).
  - apply fuzzy_confidence_unit. lra.
Qed.

Lemma hybrid_confidence_bounds_witness :
  0 <= 4 # 10 /\ 0 <= 6 # 10 /\ 0 < (4 # 10) + (6 # 10) /\
  (forall a b s, FuzzyEngine.irrigation_sim Samples.fe_fallback a b = Some s ->
     0 <= s <= 100) /\
  0 <= HybridEngine.confidence
         (HybridEngine.should_irrigate_hybrid default_config
            (HybridEngine.init (4 # 10) (6 # 10) Samples.fe_fallback) 20 "clear") <= 1.
Proof.
  assert (Hsim : forall a b s, FuzzyEngine.irrigation_sim Samples.fe_fallback a b = Some s ->
     0 <= s <= 100).
  { intros a b s H. discriminate H. }
  split; [lra|]. split; [lra|]. split; [lra|]. split; [exact Hsim|].
  apply hybrid_confidence_bounds; try lra. exact Hsim.
Defined.

(** [FuzzyEngine.evaluate_irrigation_need] clamps the moisture to
    [0, 100] before the inference: a reading at or below 0 gives the same
    result as 0, a reading at or above 100 the same result as 100. *)
Theorem fuzzy_out_of_range_moisture (fe : FuzzyEngine.FuzzyEngine) (m : Q) (wc : string)
    (H : m <= 0 \/ 100 <= m) :
  FuzzyEngine.evaluate_irrigation_need fe m wc =
  FuzzyEngine.evaluate_irrigation_need fe (if Qle_bool m 0 then 0 else 100) wc.
Proof.
  unfold FuzzyEngine.evaluate_irrigation_need, FuzzyEngine.clamp_moisture.
  destruct H as [H|H].
  - assert (E1 : Qle_bool m 0 = true) by (apply Qle_bool_iff; exact H).
    assert (E2 : Qltb m 100 = true) by (apply Qltb_true; lra).
    assert (E3 : Qltb 0 m = false) by (apply Qltb_false; exact H).
    rewrite E1, E2, E3. reflexivity.
  - assert (E1 : Qle_bool m 0 = false) by (apply Qle_bool_false; lra).
    assert (E2 : Qltb m 100 = false) by (apply Qltb_false; exact H).
    rewrite E1, E2. reflexivity.
Qed.

Lemma fuzzy_out_of_range_moisture_witness :
  ((150 : Q) <= 0 \/ 100 <= 150) /\
  FuzzyEngine.evaluate_irrigation_need FuzzyEngine.repository_engine 150 "clear" =
  FuzzyEngine.evaluate_irrigation_need FuzzyEngine.repository_engine
    (if Qle_bool 150 0 then 0 else 100) "clear".
Proof.
  assert (H : (150 : Q) <= 0 \/ 100 <= 150) by (right; lra).
  split; [exact H|]. apply fuzzy_out_of_range_moisture. exact H.
Defined.

(** [FuzzyEngine.evaluate_pressure_adjustment], through
    [HybridEngine.evaluate_pressure_adjustment]: when the fuzzy
    computation raises, the adjustment falls back to the difference to
    the target, so the recommended pressure is exactly the target. *)
Theorem pressure_adjustment_fallback (sim : Q -> option Q) (cur tgt : Q)
    (H : sim (FuzzyEngine.clamp_pressure cur) = None) :
  FuzzyEngine.adjustment_kpa (HybridEngine.evaluate_pressure_adjustment sim cur tgt) == tgt - cur /\
  FuzzyEngine.recommended_pressure_kpa (HybridEngine.evaluate_pressure_adjustment sim cur tgt)
    == tgt.
Proof.
  unfold HybridEngine.evaluate_pressure_adjustment, FuzzyEngine.evaluate_pressure_adjustment.
  rewrite H. cbn [FuzzyEngine.adjustment_kpa FuzzyEngine.recommended_pressure_kpa].
  split; [reflexivity|ring].
Qed.

Lemma pressure_adjustment_fallback_witness :
  (fun _ : Q => @None Q) (FuzzyEngine.clamp_pressure 120) = None /\
  FuzzyEngine.adjustment_kpa
    (HybridEngine.evaluate_pressure_adjustment (fun _ => None) 120 200) == 200 - 120 /\
  FuzzyEngine.recommended_pressure_kpa
    (HybridEngine.evaluate_pressure_adjustment (fun _ => None) 120 200) == 200.
Proof.
  split; [reflexivity|]. apply pressure_adjustment_fallback. reflexivity.
Defined.

(** [PressureCalculator.calculate_required_pressure]: each metre of zone
    altitude adds rho * g / 1000 = 9.81 kPa to the total required
    pressure, the slope loss does not depend on the sign of the slope,
    and a zone at the reference altitude needs only its base pressure
    plus the slope loss. *)
Theorem required_pressure_altitude_slope (c : Config) (ref alt slope base d : Q) :
  PressureCalculator.total_required_pressure_kpa
    (PressureCalculator.calculate_required_pressure c ref (alt + d) slope base)
  == PressureCalculator.total_required_pressure_kpa
       (PressureCalculator.calculate_required_pressure c ref alt slope base) + (981 # 100) * d /\
  PressureCalculator.total_required_pressure_kpa
    (PressureCalculator.calculate_required_pressure c ref alt (- slope) base)
  == PressureCalculator.total_required_pressure_kpa
       (PressureCalculator.calculate_required_pressure c ref alt slope base) /\
  PressureCalculator.total_required_pressure_kpa
    (PressureCalculator.calculate_required_pressure c ref ref slope base)
  == base + Qabs slope * PRESSURE_LOSS_PER_DEGREE_SLOPE_KPA c.
Proof.
  unfold PressureCalculator.calculate_required_pressure,
    PressureCalculator.calculate_elevation_head, PressureCalculator.calculate_slope_loss,
    WATER_DENSITY_KG_PER_M3, GRAVITY_M_PER_S2.
  cbn [PressureCalculator.total_required_pressure_kpa].
  rewrite Qabs_opp.
  split; [|split]; field.
Qed.

(** [PressureCalculator.calculate_zone_pressure_range]: for a
    non-negative required pressure and tolerance, the range is never
    negative, contains the target, and is at most twice the tolerance
    wide. *)
Theorem zone_pressure_range_bounds (req tol : Q) (Hreq : 0 <= req) (Htol : 0 <= tol) :
  let r := PressureCalculator.calculate_zone_pressure_range req tol in
  PressureCalculator.range_target_pressure_kpa r = req /\
  0 <= PressureCalculator.min_pressure_kpa r /\
  PressureCalculator.min_pressure_kpa r <= req /\
  req <= PressureCalculator.max_pressure_kpa r /\
  PressureCalculator.max_pressure_kpa r - PressureCalculator.min_pressure_kpa r <= 2 * tol.
Proof.
  cbv zeta. unfold PressureCalculator.calculate_zone_pressure_range.
  cbn [PressureCalculator.range_target_pressure_kpa PressureCalculator.min_pressure_kpa
    PressureCalculator.max_pressure_kpa].
  destruct (Qltb 0 (req - tol)) eqn:E.
  - apply Qltb_true in E. repeat split; lra.
  - apply Qltb_false in E. repeat split; lra.
Qed.

Lemma zone_pressure_range_bounds_witness :
  0 <= 5 /\ 0 <= 10 /\
  (let r := PressureCalculator.calculate_zone_pressure_range 5 10 in
   PressureCalculator.range_target_pressure_kpa r = 5 /\
   0 <= PressureCalculator.min_pressure_kpa r /\
   PressureCalculator.min_pressure_kpa r <= 5 /\
   5 <= PressureCalculator.max_pressure_kpa r /\
   PressureCalculator.max_pressure_kpa r - PressureCalculator.min_pressure_kpa r <= 2 * 10).
Proof.
  split; [lra|]. split; [lra|].
  apply zone_pressure_range_bounds; lra.
Defined.

Lemma next_zones_from (k : nat) (suf pre : list Z) :
  Valves.next_zones (length suf + k) (Valves.mkZoneSequence (pre ++ suf) (length pre))
  = map Some suf ++ repeat None k.
Proof.
  revert pre. induction suf as [|a suf IH]; intro pre.
  - rewrite app_nil_r. cbn. induction k as [|k IHk]; [reflexivity|].
    cbn. unfold Valves.get_next_zone. cbn [Valves.zone_sequence Valves.sequence_index].
    rewrite Nat.leb_refl, orb_true_r. cbn. rewrite IHk. reflexivity.
  - cbn [length plus Valves.next_zones].
    unfold Valves.get_next_zone. cbn [Valves.zone_sequence Valves.sequence_index].
    assert (E1 : (length (pre ++ a :: suf) <=? length pre)%nat = false).
    { apply Nat.leb_gt. rewrite length_app. cbn. lia. }
    assert (E0 : match pre ++ a :: suf with [] => true | _ => false end = false).
    { destruct pre; reflexivity. }
    rewrite E0, E1.
    rewrite nth_error_app2, Nat.sub_diag by lia. cbn.
    f_equal.
    replace (S (length pre)) with (length (pre ++ [a])) by (rewrite length_app; cbn; lia).
    replace (pre ++ a :: suf) with ((pre ++ [a]) ++ suf) by (rewrite <- app_assoc; reflexivity).
    apply IH.
Qed.

(** [HydraulicValveController.set_zone_sequence] followed by repeated
    [get_next_zone]: the zones come out in the given order, each once,
    and every further call returns [None]; [reset_sequence] starts the
    same sequence again. *)
Theorem zone_sequence_in_order (zs : list Z) (k : nat) (s : Valves.ZoneSequence) :
  Valves.next_zones (length zs + k) (Valves.set_zone_sequence zs) = map Some zs ++ repeat None k /\
  Valves.reset_sequence s = Valves.set_zone_sequence (Valves.zone_sequence s).
Proof.
  split; [|reflexivity].
  exact (next_zones_from k zs []).
Qed.

(** [SimplePumpController.set_pressure] then [get_current_pressure], with
    no GPIO fault: the reading is the new target when the pump was already
    running or the target is positive (which starts it), and 0 otherwise. *)
Theorem set_pressure_get_current_pressure (p : PumpId) (k : Q) (env : Env) (w : World)
    (Hf : hw_fault env (GpioPump p) (tick w) = false) :
  fst (PumpInterface.set_pressure p k env w) = Ok tt /\
  fst (PumpInterface.get_current_pressure p env (snd (PumpInterface.set_pressure p k env w)))
  = Ok (if is_pump_running (pumps w p) || Qltb 0 k then k else 0).
Proof.
  unfold PumpInterface.set_pressure, PumpInterface.get_current_pressure,
    PumpInterface.is_running_pump, PumpInterface.start, set_pump, upd.
  repeat progress unfold_monad. cbn.
  assert (Ep : PumpId_eqb p p = true) by (destruct p; reflexivity).
  rewrite ?Ep. cbn.
  destruct (is_pump_running (pumps w p)); cbn; [rewrite ?Ep; split; reflexivity|].
  destruct (Qltb 0 k); cbn; rewrite ?Hf; cbn; rewrite ?Ep; cbn; split; reflexivity.
Qed.

Lemma set_pressure_get_current_pressure_witness :
  hw_fault (Samples.env_with (fun _ _ => false) []) (GpioPump IrrigationPump)
    (tick Samples.world0) = false /\
  fst (PumpInterface.set_pressure IrrigationPump 150 (Samples.env_with (fun _ _ => false) [])
         Samples.world0) = Ok tt /\
  fst (PumpInterface.get_current_pressure IrrigationPump (Samples.env_with (fun _ _ => false) [])
         (snd (PumpInterface.set_pressure IrrigationPump 150
                 (Samples.env_with (fun _ _ => false) []) Samples.world0)))
  = Ok (if is_pump_running (pumps Samples.world0 IrrigationPump) || Qltb 0 150 then 150 else 0).
Proof.
  split; [reflexivity|]. apply set_pressure_get_current_pressure. reflexivity.
Defined.

(** [HydraulicPumpController.stop_pressure_control]: pressure control is
    off afterwards even when the pump's GPIO write raises, so
    [maintain_pressure] answers ['not_controlling'] and
    [is_pressure_stable] answers [False]; the pump is stopped when the
    write succeeds, and left as it was when it raises. *)
Theorem stop_pressure_control_outcome (p : PumpId) (cur : option Q) (env : Env) (w : World) :
  let w' := snd (PumpController.stop_pressure_control p env w) in
  is_controlling (pctl w' p) = false /\
  fst (PumpController.maintain_pressure p cur env w') = Ok PumpController.NotControlling /\
  fst (PumpController.is_pressure_stable p cur env w') = Ok false /\
  match fst (PumpController.stop_pressure_control p env w) with
  | Ok _ => is_pump_running (pumps w' p) = false
  | Raise _ => pumps w' p = pumps w p
  end.
Proof.
  unfold PumpController.stop_pressure_control, PumpController.maintain_pressure,
    PumpController.is_pressure_stable, PumpController.get_ctl, PumpController.put_ctl,
    PumpInterface.stop, set_pctl, set_pump, upd.
  repeat progress unfold_monad. cbn.
  assert (Ep : PumpId_eqb p p = true) by (destruct p; reflexivity).
  rewrite ?Ep. cbn.
  destruct (hw_fault env (GpioPump p) (tick w)); cbn; rewrite ?Ep; cbn;
    repeat split; reflexivity.
Qed.

(** [HydraulicPumpController.start_pressure_control] with no GPIO fault on
    the pump: the pump is started only if it was not running, the target
    is written once, and afterwards the pump runs at the target, control
    is on with that target, and (for a non-negative tolerance)
    [is_pressure_stable()] without a reading reports stable. *)
Theorem start_pressure_control_outcome (p : PumpId) (target : Q) (env : Env) (w : World)
    (Hf : hw_fault env (GpioPump p) (tick w) = false)
    (Htol : 0 <= PUMP_PRESSURE_TOLERANCE_KPA (cfg env)) :
  let w' := snd (PumpController.start_pressure_control p target env w) in
  fst (PumpController.start_pressure_control p target env w) = Ok tt /\
  trace w' = trace w ++ (if is_pump_running (pumps w p) then [] else [EPumpStart p])
               ++ [ESetPressure p target] /\
  is_pump_running (pumps w' p) = true /\ pump_target_pressure (pumps w' p) = target /\
  is_controlling (pctl w' p) = true /\ target_pressure_kpa (pctl w' p) = target /\
  fst (PumpController.is_pressure_stable p None env w') = Ok true.
Proof.
  revert Hf. destruct p; intro Hf.
  all: unfold PumpController.start_pressure_control, PumpController.update_mock_pressure_sensor,
    PumpController.is_pressure_stable, PumpController.get_ctl, PumpController.put_ctl,
    PumpInterface.set_pressure, PumpInterface.get_current_pressure,
    PumpInterface.is_running_pump, PumpInterface.start, set_pctl, set_pump, upd.
  all: assert (Hs : Qle_bool (Qabs (target - target)) (PUMP_PRESSURE_TOLERANCE_KPA (cfg env)) = true)
    by (apply Qle_bool_iff; setoid_replace (target - target) with 0 by ring; exact Htol).
  all: repeat progress unfold_monad; cbn.
  all: repeat (match goal with |- context [if ?b then _ else _] => destruct b eqn:? end; cbn).
  all: cbn in *; try congruence.
  all: rewrite ?Hs, <- ?app_assoc; repeat split; reflexivity.
Qed.

Lemma start_pressure_control_outcome_witness :
  hw_fault (Samples.env_with (fun _ _ => false) []) (GpioPump IrrigationPump)
    (tick Samples.world0) = false /\
  0 <= PUMP_PRESSURE_TOLERANCE_KPA (cfg (Samples.env_with (fun _ _ => false) [])) /\
  (let w' := snd (PumpController.start_pressure_control IrrigationPump 200
                    (Samples.env_with (fun _ _ => false) []) Samples.world0) in
   fst (PumpController.start_pressure_control IrrigationPump 200
          (Samples.env_with (fun _ _ => false) []) Samples.world0) = Ok tt /\
   trace w' = trace Samples.world0 ++
     (if is_pump_running (pumps Samples.world0 IrrigationPump) then []
      else [EPumpStart IrrigationPump]) ++ [ESetPressure IrrigationPump 200] /\
   is_pump_running (pumps w' IrrigationPump) = true /\
   pump_target_pressure (pumps w' IrrigationPump) = 200 /\
   is_controlling (pctl w' IrrigationPump) = true /\
   target_pressure_kpa (pctl w' IrrigationPump) = 200 /\
   fst (PumpController.is_pressure_stable IrrigationPump None
          (Samples.env_with (fun _ _ => false) []) w') = Ok true).
Proof.
  split; [reflexivity|]. split; [cbn; lra|].
  apply start_pressure_control_outcome; [reflexivity|cbn; lra].
Defined.

(** [is_pressure_stable] and [maintain_pressure] agree: for a controlling
    pump whose adjustment interval has elapsed, a reading is judged stable
    by [is_pressure_stable] exactly when [maintain_pressure] returns
    ['stable'] for it. *)
Theorem maintain_pressure_stable_iff (p : PumpId) (cur : Q) (env : Env) (w : World)
    (Hc : is_controlling (pctl w p) = true)
    (Hi : PUMP_ADJUSTMENT_INTERVAL_SEC (cfg env) <= clock w - last_adjustment_time (pctl w p)) :
  fst (PumpController.is_pressure_stable p (Some cur) env w) = Ok true <->
  fst (PumpController.maintain_pressure p (Some cur) env w)
  = Ok (PumpController.Stable cur (target_pressure_kpa (pctl w p))
          (target_pressure_kpa (pctl w p) - cur)).
Proof.
  assert (Hw : Qltb (clock w - last_adjustment_time (pctl w p))
                    (PUMP_ADJUSTMENT_INTERVAL_SEC (cfg env)) = false)
    by (apply Qltb_false; exact Hi).
  unfold PumpController.is_pressure_stable, PumpController.maintain_pressure,
    PumpController.get_ctl.
  repeat progress unfold_monad. cbn. rewrite Hc. cbn. rewrite Hw. cbn.
  destruct (Qle_bool _ _); cbn.
  - split; reflexivity.
  - unfold PumpInterface.set_pressure, PumpController.put_ctl, PumpInterface.is_running_pump,
      PumpInterface.start, PumpController.update_mock_pressure_sensor, PumpController.get_ctl.
    repeat progress unfold_monad. cbn.
    split; [discriminate|].
    repeat (match goal with |- context [if ?b then _ else _] => destruct b eqn:? end; cbn).
    all: discriminate.
Qed.

Lemma maintain_pressure_stable_iff_witness :
  is_controlling (pctl (Samples.world_ctl 100) IrrigationPump) = true /\
  PUMP_ADJUSTMENT_INTERVAL_SEC (cfg Samples.env_zone0)
    <= clock (Samples.world_ctl 100) - last_adjustment_time (pctl (Samples.world_ctl 100) IrrigationPump) /\
  (fst (PumpController.is_pressure_stable IrrigationPump (Some 195) Samples.env_zone0
          (Samples.world_ctl 100)) = Ok true <->
   fst (PumpController.maintain_pressure IrrigationPump (Some 195) Samples.env_zone0
          (Samples.world_ctl 100))
   = Ok (PumpController.Stable 195 (target_pressure_kpa (pctl (Samples.world_ctl 100) IrrigationPump))
           (target_pressure_kpa (pctl (Samples.world_ctl 100) IrrigationPump) - 195))).
Proof.
  split; [reflexivity|]. split; [cbn; lra|].
  apply maintain_pressure_stable_iff; [reflexivity|cbn; lra].
Defined.

Lemma set_state_keys (vs : list (Z * bool)) (z : Z) (b : bool) :
  map fst (Valves.set_state vs z b) = map fst vs.
Proof.
  induction vs as [|[k v] vs IH]; cbn; [reflexivity|].
  destruct (Z.eqb z k); cbn; [reflexivity|]. rewrite IH. reflexivity.
Qed.

Lemma configured_in (vs : list (Z * bool)) (z : Z) :
  Valves.configured vs z = true <-> In z (map fst vs).
Proof.
  unfold Valves.configured. rewrite existsb_exists. split.
  - intros ([k v] & Hin & Hk). apply Z.eqb_eq in Hk. cbn in Hk. subst k.
    apply in_map_iff. exists (z, v). auto.
  - intros Hin. apply in_map_iff in Hin. destruct Hin as ([k v] & Hk & Hin).
    cbn in Hk. subst k. exists (z, v). split; [exact Hin|]. apply Z.eqb_refl.
Qed.

Lemma existsb_open_not_in (vs : list (Z * bool)) (z : Z) :
  ~ In z (map fst vs) -> existsb (fun p => Z.eqb (fst p) z && snd p) vs = false.
Proof.
  induction vs as [|[k v] vs IH]; intro Hn; cbn; [reflexivity|].
  cbn in Hn. destruct (Z.eqb_spec k z); [exfalso; auto|].
  cbn. apply IH. auto.
Qed.

Lemma is_open_set_state (vs : list (Z * bool)) (z z' : Z) (b : bool) :
  NoDup (map fst vs) -> Valves.configured vs z = true ->
  existsb (fun p => Z.eqb (fst p) z' && snd p) (Valves.set_state vs z b)
  = if Z.eqb z' z then b else existsb (fun p => Z.eqb (fst p) z' && snd p) vs.
Proof.
  induction vs as [|[k v] vs IH]; intros Hnd Hc; [discriminate|].
  cbn in Hnd. inversion Hnd as [|? ? Hk Hnd']; subst.
  cbn. destruct (Z.eqb_spec z k) as [->|Hzk].
  - cbn. destruct (Z.eqb_spec z' k) as [->|Hz'].
    + rewrite Z.eqb_refl. cbn. rewrite existsb_open_not_in by exact Hk.
      destruct b; reflexivity.
    + apply Z.eqb_neq in Hz'. rewrite Z.eqb_sym, Hz'. reflexivity.
  - cbn. unfold Valves.configured in Hc. cbn in Hc.
    assert (Hz : Z.eqb k z = false) by (apply Z.eqb_neq; congruence).
    rewrite Hz in Hc. cbn in Hc.
    rewrite IH by assumption.
    destruct (Z.eqb_spec z' z) as [->|Hz'].
    + rewrite Hz. reflexivity.
    + reflexivity.
Qed.

Lemma set_state_in (vs : list (Z * bool)) (z k : Z) (b v : bool) :
  NoDup (map fst vs) -> In (k, v) (Valves.set_state vs z b) ->
  (k = z /\ v = b) \/ (k <> z /\ In (k, v) vs).
Proof.
  induction vs as [|[k0 v0] vs IH]; intros Hnd Hin; [destruct Hin|].
  cbn in Hnd. inversion Hnd as [|? ? Hk0 Hnd']; subst.
  cbn in Hin. destruct (Z.eqb_spec z k0) as [->|Hzk].
  - destruct Hin as [Heq|Hin].
    + injection Heq as -> ->. left. auto.
    + right. split; [|right; exact Hin].
      intros ->. apply Hk0. apply in_map_iff. exists (k0, v). auto.
  - destruct Hin as [Heq|Hin].
    + injection Heq as -> ->. right. split; [intro; apply Hzk; congruence|left; reflexivity].
    + destruct (IH Hnd' Hin) as [H|[H1 H2]]; [left; exact H|right; split; [exact H1|right; exact H2]].
Qed.

Lemma fold_close_all (zs : list Z) (vs : list (Z * bool)) :
  NoDup (map fst vs) ->
  (forall p, In p vs -> snd p = true -> In (fst p) zs) ->
  forall p, In p (fold_left (fun vs z => Valves.set_state vs z false) zs vs) -> snd p = false.
Proof.
  revert vs. induction zs as [|z zs IH]; intros vs Hnd Hinv p Hin; cbn in *.
  - destruct (snd p) eqn:E; [|reflexivity]. destruct (Hinv p Hin E).
  - apply (IH (Valves.set_state vs z false)); [rewrite set_state_keys; exact Hnd| |exact Hin].
    intros [k v] Hk Hv. cbn in Hv. subst v.
    destruct (set_state_in vs z k false true Hnd Hk) as [[_ H]|[Hkz Hk']]; [discriminate|].
    destruct (Hinv _ Hk' eq_refl) as [H|H]; [cbn in H; congruence|exact H].
Qed.

Lemma filter_all_closed (vs : list (Z * bool)) :
  (forall p, In p vs -> snd p = false) -> filter snd vs = [].
Proof.
  induction vs as [|p vs IH]; intro H; cbn; [reflexivity|].
  rewrite (H p (or_introl eq_refl)). apply IH. intros q Hq. apply H. right. exact Hq.
Qed.

Lemma open_one_of_closed (vs : list (Z * bool)) (z : Z) :
  NoDup (map fst vs) -> (forall p, In p vs -> snd p = false) -> Valves.configured vs z = true ->
  map fst (filter snd (Valves.set_state vs z true)) = [z].
Proof.
  induction vs as [|[k v] vs IH]; intros Hnd Hcl Hc; [discriminate|].
  cbn in Hnd. inversion Hnd as [|? ? Hk Hnd']; subst.
  cbn. destruct (Z.eqb_spec z k) as [->|Hzk].
  - cbn. rewrite filter_all_closed; [reflexivity|].
    intros p Hp. apply Hcl. right. exact Hp.
  - pose proof (Hcl (k, v) (or_introl eq_refl)) as Hv. cbn in Hv. subst v. cbn.
    apply IH; [exact Hnd'| |].
    + intros p Hp. apply Hcl. right. exact Hp.
    + unfold Valves.configured in Hc. cbn in Hc.
      assert (Hz : Z.eqb k z = false) by (apply Z.eqb_neq; congruence).
      rewrite Hz in Hc. exact Hc.
Qed.

Lemma fold_set_state_keys (zs : list Z) (vs : list (Z * bool)) :
  map fst (fold_left (fun vs z => Valves.set_state vs z false) zs vs) = map fst vs.
Proof.
  revert vs. induction zs as [|z zs IH]; intro vs; cbn; [reflexivity|].
  rewrite IH, set_state_keys. reflexivity.
Qed.

(** What a successful [close_each] did. *)
Lemma close_each_ok (zs : list Z) (env : Env) (w w' : World) :
  Valves.close_each zs env w = (Ok tt, w') ->
  valve_states w' = fold_left (fun vs z => Valves.set_state vs z false) zs (valve_states w) /\
  tick w' = tick w /\ valve_current_zone w' = valve_current_zone w /\
  pumps w' = pumps w /\ irr w' = irr w.
Proof.
  revert w. induction zs as [|z zs IH]; intros w H; cbn in H.
  - unfold ret in H. injection H as <-. auto.
  - unfold Valves.close_valve in H. repeat progress unfold_monad. cbn in H.
    destruct (Valves.configured (valve_states w) z); cbn in H; [|discriminate].
    destruct (hw_fault env (GpioValve z) (tick w)); cbn in H; [discriminate|].
    apply IH in H. cbn in H. destruct H as (H1 & H2 & H3 & H4 & H5).
    rewrite H1, H2, H3, H4, H5. auto.
Qed.

(** [close_each] on configured zones with no valve fault succeeds. *)
Lemma close_each_no_fault (zs : list Z) (env : Env) (w : World) :
  (forall z, In z zs -> Valves.configured (valve_states w) z = true) ->
  (forall z, hw_fault env (GpioValve z) (tick w) = false) ->
  fst (Valves.close_each zs env w) = Ok tt.
Proof.
  revert w. induction zs as [|z zs IH]; intros w Hc Hf; cbn; [reflexivity|].
  unfold Valves.close_valve. repeat progress unfold_monad. cbn.
  rewrite (Hc z (or_introl eq_refl)). cbn. rewrite Hf. cbn.
  apply IH; cbn; [|exact Hf].
  intros z' Hz'. apply configured_in. rewrite set_state_keys. apply configured_in.
  apply Hc. right. exact Hz'.
Qed.

Lemma close_all_valves_ok (env : Env) (w w' : World) :
  NoDup (map fst (valve_states w)) ->
  Valves.close_all_valves env w = (Ok tt, w') ->
  filter snd (valve_states w') = [] /\ map fst (valve_states w') = map fst (valve_states w) /\
  tick w' = tick w /\ valve_current_zone w' = valve_current_zone w /\
  pumps w' = pumps w /\ irr w' = irr w.
Proof.
  intros Hnd H. unfold Valves.close_all_valves in H. repeat progress unfold_monad. cbn in H.
  apply close_each_ok in H. destruct H as (H1 & H2 & H3 & H4 & H5).
  split; [|split; [|auto]].
  - apply filter_all_closed. rewrite H1.
    apply fold_close_all; [exact Hnd|].
    intros [k v] Hin _. cbn. apply in_map_iff. exists (k, v). auto.
  - rewrite H1. apply fold_set_state_keys.
Qed.

Lemma close_all_valves_no_fault (env : Env) (w : World) :
  (forall z, hw_fault env (GpioValve z) (tick w) = false) ->
  fst (Valves.close_all_valves env w) = Ok tt.
Proof.
  intro Hf. unfold Valves.close_all_valves. repeat progress unfold_monad. cbn.
  apply close_each_no_fault; [|exact Hf].
  intros z Hz. apply configured_in. exact Hz.
Qed.

(** [SolenoidValveController] on a zone without a configured pin:
    [open_valve] and [close_valve] raise [ValueError] before any GPIO
    write and change nothing, [is_valve_open] answers [False], and
    [HydraulicValveController.close_zone] returns [False] without any
    change. *)
Theorem valve_unconfigured_zone (z : Z) (env : Env) (w : World)
    (H : Valves.configured (valve_states w) z = false) :
  Valves.open_valve z env w = (Raise ValueError, w) /\
  Valves.close_valve z env w = (Raise ValueError, w) /\
  fst (Valves.is_valve_open z env w) = Ok false /\
  Valves.close_zone z env w = (Ok false, w).
Proof.
  unfold Valves.close_zone, Valves.open_valve, Valves.close_valve, Valves.is_valve_open,
    Valves.is_open.
  repeat progress unfold_monad. cbn. rewrite H. cbn.
  rewrite existsb_open_not_in; [repeat split; reflexivity|].
  intro Hin. apply configured_in in Hin. congruence.
Qed.

Lemma valve_unconfigured_zone_witness :
  Valves.configured (valve_states Samples.world0) 5 = false /\
  Valves.open_valve 5 Samples.env_zone0 Samples.world0 = (Raise ValueError, Samples.world0) /\
  Valves.close_valve 5 Samples.env_zone0 Samples.world0 = (Raise ValueError, Samples.world0) /\
  fst (Valves.is_valve_open 5 Samples.env_zone0 Samples.world0) = Ok false /\
  Valves.close_zone 5 Samples.env_zone0 Samples.world0 = (Ok false, Samples.world0).
Proof.
  split; [reflexivity|]. apply valve_unconfigured_zone. reflexivity.
Defined.

(** [SolenoidValveController.open_valve] and [close_valve] on a
    configured zone with no GPIO fault (the zone keys being distinct, as
    in a dict): afterwards [is_valve_open] reports the new state of that
    zone and the same state as before for every other zone. *)
Theorem valve_open_close_roundtrip (z : Z) (env : Env) (w : World)
    (Hnd : NoDup (map fst (valve_states w)))
    (Hc : Valves.configured (valve_states w) z = true)
    (Hf : hw_fault env (GpioValve z) (tick w) = false) :
  fst (Valves.open_valve z env w) = Ok tt /\
  fst (Valves.close_valve z env w) = Ok tt /\
  forall z', fst (Valves.is_valve_open z' env (snd (Valves.open_valve z env w)))
               = Ok (if Z.eqb z' z then true else Valves.is_open w z') /\
             fst (Valves.is_valve_open z' env (snd (Valves.close_valve z env w)))
               = Ok (if Z.eqb z' z then false else Valves.is_open w z').
Proof.
  unfold Valves.open_valve, Valves.close_valve, Valves.is_valve_open, Valves.is_open.
  repeat progress unfold_monad. cbn. rewrite Hc. cbn. rewrite Hf. cbn.
  split; [reflexivity|]. split; [reflexivity|].
  intro z'. rewrite !is_open_set_state by assumption. split; reflexivity.
Qed.

Lemma valves_nodup_world0 : NoDup (map fst (valve_states Samples.world0)).
Proof.
  cbn. constructor; [cbn; intros [H|[]]; discriminate|].
  constructor; [intros []|constructor].
Qed.

Lemma valve_open_close_roundtrip_witness :
  NoDup (map fst (valve_states Samples.world0)) /\
  Valves.configured (valve_states Samples.world0) 1 = true /\
  hw_fault Samples.env_zone0 (GpioValve 1) (tick Samples.world0) = false /\
  (fst (Valves.open_valve 1 Samples.env_zone0 Samples.world0) = Ok tt /\
   fst (Valves.close_valve 1 Samples.env_zone0 Samples.world0) = Ok tt /\
   forall z', fst (Valves.is_valve_open z' Samples.env_zone0
                    (snd (Valves.open_valve 1 Samples.env_zone0 Samples.world0)))
                = Ok (if Z.eqb z' 1 then true else Valves.is_open Samples.world0 z') /\
              fst (Valves.is_valve_open z' Samples.env_zone0
                    (snd (Valves.close_valve 1 Samples.env_zone0 Samples.world0)))
                = Ok (if Z.eqb z' 1 then false else Valves.is_open Samples.world0 z')).
Proof.
  split; [exact valves_nodup_world0|]. split; [reflexivity|]. split; [reflexivity|].
  apply valve_open_close_roundtrip; [exact valves_nodup_world0|reflexivity|reflexivity].
Defined.

(** [HydraulicValveController.close_all_zones] with no valve fault (the
    zone keys being distinct): it returns [True], no valve is left open
    ([get_open_valves()] is empty), the current zone is cleared, and the
    set of configured zones is unchanged. *)
Theorem close_all_zones_closes_every_valve (env : Env) (w : World)
    (Hnd : NoDup (map fst (valve_states w)))
    (Hf : forall z, hw_fault env (GpioValve z) (tick w) = false) :
  let w' := snd (Valves.close_all_zones env w) in
  fst (Valves.close_all_zones env w) = Ok true /\
  fst (Valves.get_open_valves env w') = Ok [] /\
  valve_current_zone w' = None /\
  map fst (valve_states w') = map fst (valve_states w).
Proof.
  pose proof (close_all_valves_no_fault env w Hf) as Hok.
  destruct (Valves.close_all_valves env w) as [r w1] eqn:E. cbn in Hok. subst r.
  destruct (close_all_valves_ok env w w1 Hnd E) as (H1 & H2 & _).
  unfold Valves.close_all_zones, Valves.get_open_valves. repeat progress unfold_monad.
  rewrite E. cbn. rewrite H1. auto.
Qed.

Lemma close_all_zones_closes_every_valve_witness :
  NoDup (map fst (valve_states Samples.world0)) /\
  (forall z, hw_fault Samples.env_zone0 (GpioValve z) (tick Samples.world0) = false) /\
  (let w' := snd (Valves.close_all_zones Samples.env_zone0 Samples.world0) in
   fst (Valves.close_all_zones Samples.env_zone0 Samples.world0) = Ok true /\
   fst (Valves.get_open_valves Samples.env_zone0 w') = Ok [] /\
   valve_current_zone w' = None /\
   map fst (valve_states w') = map fst (valve_states Samples.world0)).
Proof.
  assert (Hf : forall z, hw_fault Samples.env_zone0 (GpioValve z) (tick Samples.world0) = false)
    by (intro z; reflexivity).
  split; [exact valves_nodup_world0|]. split; [exact Hf|].
  apply close_all_zones_closes_every_valve; [exact valves_nodup_world0|exact Hf].
Defined.

(** [HydraulicValveController.open_zone(zone_id)] (with the default
    [close_others=True], the zone keys being distinct) never raises: it
    answers [True] or [False]; and when it answers [True] the requested
    zone is the only open valve and is the current zone. *)
Theorem open_zone_exclusive (z : Z) (env : Env) (w : World)
    (Hnd : NoDup (map fst (valve_states w))) :
  (fst (Valves.open_zone z true env w) = Ok true \/ fst (Valves.open_zone z true env w) = Ok false) /\
  (fst (Valves.open_zone z true env w) = Ok true ->
   fst (Valves.get_open_valves env (snd (Valves.open_zone z true env w))) = Ok [z] /\
   valve_current_zone (snd (Valves.open_zone z true env w)) = Some z).
Proof.
  unfold Valves.open_zone, Valves.get_open_valves. repeat progress unfold_monad. cbn.
  destruct (Valves.close_all_valves env w) as [[[]|e] w1] eqn:E; cbn.
  2: { split; [right; reflexivity|discriminate]. }
  destruct (close_all_valves_ok env w w1 Hnd E) as (Hcl & Hk & _).
  unfold Valves.open_valve. repeat progress unfold_monad. cbn.
  destruct (existsb (fun p : Z * bool => (fst p =? z)%Z) (valve_states w1)) eqn:Hc; cbn;
    [|split; [right; reflexivity|discriminate]].
  destruct (hw_fault env (GpioValve z) (tick w1)); cbn;
    [split; [right; reflexivity|discriminate]|].
  split; [left; reflexivity|]. intros _. split; [|reflexivity].
  rewrite open_one_of_closed; [reflexivity|rewrite Hk; exact Hnd| |exact Hc].
  intros p Hp. destruct (snd p) eqn:Ep; [|reflexivity]. exfalso.
  assert (Hin : In p (filter snd (valve_states w1))) by (apply filter_In; auto).
  rewrite Hcl in Hin. destruct Hin.
Qed.

Lemma open_zone_exclusive_witness :
  NoDup (map fst (valve_states Samples.world0)) /\
  ((fst (Valves.open_zone 1 true Samples.env_zone0 Samples.world0) = Ok true \/
    fst (Valves.open_zone 1 true Samples.env_zone0 Samples.world0) = Ok false) /\
   (fst (Valves.open_zone 1 true Samples.env_zone0 Samples.world0) = Ok true ->
    fst (Valves.get_open_valves Samples.env_zone0
          (snd (Valves.open_zone 1 true Samples.env_zone0 Samples.world0))) = Ok [1%Z] /\
    valve_current_zone (snd (Valves.open_zone 1 true Samples.env_zone0 Samples.world0)) = Some 1%Z)).
Proof.
  split; [exact valves_nodup_world0|]. apply open_zone_exclusive. exact valves_nodup_world0.
Defined.

(** [HydraulicValveController.open_zone] on a zone that has no valve
    pin: with no valve fault it returns [False], yet it has already
    closed every valve (the [close_all_valves()] step runs before
    [open_valve] raises), and it leaves [current_zone] as it was. *)
Theorem open_zone_unknown_zone (z : Z) (env : Env) (w : World)
    (Hnd : NoDup (map fst (valve_states w)))
    (Hc : Valves.configured (valve_states w) z = false)
    (Hf : forall z', hw_fault env (GpioValve z') (tick w) = false) :
  fst (Valves.open_zone z true env w) = Ok false /\
  fst (Valves.get_open_valves env (snd (Valves.open_zone z true env w))) = Ok [] /\
  valve_current_zone (snd (Valves.open_zone z true env w)) = valve_current_zone w.
Proof.
  pose proof (close_all_valves_no_fault env w Hf) as Hok.
  unfold Valves.open_zone, Valves.get_open_valves. repeat progress unfold_monad. cbn.
  destruct (Valves.close_all_valves env w) as [r w1] eqn:E. cbn in Hok. subst r. cbn.
  destruct (close_all_valves_ok env w w1 Hnd E) as (Hcl & Hk & _ & Hz & _).
  unfold Valves.open_valve. repeat progress unfold_monad. cbn.
  assert (Hc1 : Valves.configured (valve_states w1) z = false).
  { destruct (Valves.configured (valve_states w1) z) eqn:Hc1; [|reflexivity].
    apply configured_in in Hc1. rewrite Hk in Hc1. apply configured_in in Hc1. congruence. }
  unfold Valves.configured in Hc1. rewrite Hc1. cbn. rewrite Hcl, Hz. auto.
Qed.

Lemma open_zone_unknown_zone_witness :
  NoDup (map fst (valve_states Samples.world0)) /\
  Valves.configured (valve_states Samples.world0) 7 = false /\
  (forall z', hw_fault Samples.env_zone0 (GpioValve z') (tick Samples.world0) = false) /\
  (fst (Valves.open_zone 7 true Samples.env_zone0 Samples.world0) = Ok false /\
   fst (Valves.get_open_valves Samples.env_zone0
         (snd (Valves.open_zone 7 true Samples.env_zone0 Samples.world0))) = Ok [] /\
   valve_current_zone (snd (Valves.open_zone 7 true Samples.env_zone0 Samples.world0))
     = valve_current_zone Samples.world0).
Proof.
  assert (Hf : forall z', hw_fault Samples.env_zone0 (GpioValve z') (tick Samples.world0) = false)
    by (intro; reflexivity).
  split; [exact valves_nodup_world0|]. split; [reflexivity|]. split; [exact Hf|].
  apply open_zone_unknown_zone; [exact valves_nodup_world0|reflexivity|exact Hf].
Defined.

(** [HydraulicValveController.close_zone] on a configured zone (the zone
    keys being distinct): on a GPIO fault it returns [False] with the
    valve states and [current_zone] unchanged; otherwise it returns
    [True], that valve is closed, every other valve keeps its state, and
    [current_zone] is cleared exactly when it was this zone. *)
Theorem close_zone_outcome (z : Z) (env : Env) (w : World)
    (Hnd : NoDup (map fst (valve_states w)))
    (Hc : Valves.configured (valve_states w) z = true) :
  let w' := snd (Valves.close_zone z env w) in
  if hw_fault env (GpioValve z) (tick w) then
    fst (Valves.close_zone z env w) = Ok false /\
    valve_states w' = valve_states w /\ valve_current_zone w' = valve_current_zone w
  else
    fst (Valves.close_zone z env w) = Ok true /\
    (forall z', Valves.is_open w' z' = if Z.eqb z' z then false else Valves.is_open w z') /\
    valve_current_zone w' =
      match valve_current_zone w with
      | Some z0 => if Z.eqb z0 z then None else Some z0
      | None => None
      end.
Proof.
  unfold Valves.close_zone, Valves.close_valve, Valves.is_open.
  repeat progress unfold_monad. cbn. rewrite Hc. cbn.
  destruct (hw_fault env (GpioValve z) (tick w)); cbn; [auto|].
  split; [|split].
  - destruct (valve_current_zone w) as [z0|]; cbn; [destruct (Z.eqb z0 z)|]; reflexivity.
  - intro z'.
    destruct (valve_current_zone w) as [z0|]; cbn; [destruct (Z.eqb z0 z)|]; cbn;
      apply is_open_set_state; assumption.
  - destruct (valve_current_zone w) as [z0|]; cbn; [destruct (Z.eqb z0 z)|]; reflexivity.
Qed.

Lemma close_zone_outcome_witness :
  NoDup (map fst (valve_states Samples.world0)) /\
  Valves.configured (valve_states Samples.world0) 0 = true /\
  (let w' := snd (Valves.close_zone 0 Samples.env_zone0 Samples.world0) in
   if hw_fault Samples.env_zone0 (GpioValve 0) (tick Samples.world0) then
     fst (Valves.close_zone 0 Samples.env_zone0 Samples.world0) = Ok false /\
     valve_states w' = valve_states Samples.world0 /\
     valve_current_zone w' = valve_current_zone Samples.world0
   else
     fst (Valves.close_zone 0 Samples.env_zone0 Samples.world0) = Ok true /\
     (forall z', Valves.is_open w' z' = if Z.eqb z' 0 then false else Valves.is_open Samples.world0 z') /\
     valve_current_zone w' =
       match valve_current_zone Samples.world0 with
       | Some z0 => if Z.eqb z0 0 then None else Some z0
       | None => None
       end).
Proof.
  split; [exact valves_nodup_world0|]. split; [reflexivity|].
  apply close_zone_outcome; [exact valves_nodup_world0|reflexivity].
Defined.

(** [TankValveController.close_all]: [close_inlet()] then
    [close_outlet()], each one a GPIO write then the state update. An
    inlet fault raises before the outlet is touched; an outlet fault
    raises after the inlet is closed; only the valves whose write went
    through are recorded closed. *)
Theorem close_all_tank_outcome (env : Env) (w : World) :
  let fi := hw_fault env (GpioTank Inlet) (tick w) in
  let fo := hw_fault env (GpioTank Outlet) (tick w) in
  let w' := snd (Fertigation.close_all_tank env w) in
  fst (Fertigation.close_all_tank env w) =
    (if fi then Raise (GpioError (GpioTank Inlet))
     else if fo then Raise (GpioError (GpioTank Outlet)) else Ok tt) /\
  tank_open w' Inlet = (if fi then tank_open w Inlet else false) /\
  tank_open w' Outlet = (if fi || fo then tank_open w Outlet else false) /\
  trace w' = trace w ++ ETankClose Inlet :: (if fi then [] else [ETankClose Outlet]) /\
  valve_states w' = valve_states w /\ pumps w' = pumps w.
Proof.
  unfold Fertigation.close_all_tank, Fertigation.close_tank, set_tank.
  repeat progress unfold_monad. cbn.
  destruct (hw_fault env (GpioTank Inlet) (tick w)); cbn.
  all: destruct (hw_fault env (GpioTank Outlet) (tick w)); cbn;
    (repeat split; rewrite <- ?app_assoc; reflexivity).
Qed.

Section WPFault.
Context {S : Type} (stp : S -> Event -> option S) (env : Env).

(** [write_pin], with the fault known in each branch. *)
Lemma wp_write_pin_case op Q w s :
  (hw_fault env op (tick w) = false -> Q (Ok tt) w s) ->
  (hw_fault env op (tick w) = true -> Q (Raise (GpioError op)) w s) ->
  Ordering.wp stp env (write_pin op) Q w s.
Proof.
  intros H1 H2. exists [], s. unfold write_pin.
  destruct (hw_fault env op (tick w)) eqn:E; cbn; rewrite app_nil_r; auto.
Qed.

End WPFault.

(** With a scanner that accepts every command, [wp] is a plain program
    logic for the outcome and the final world. *)
Lemma wp_any_sound {A} (env : Env) (m : M A) (Q : Res A -> World -> Prop) (w : World) :
  Ordering.wp (fun (_ : unit) (_ : Event) => Some tt) env m (fun r w' _ => Q r w') w tt ->
  Q (fst (m env w)) (snd (m env w)).
Proof. intros (tr & s' & _ & _ & H). exact H. Qed.

(** A scanner that records the commands, most recent first. *)
Lemma scan_hist (tr s : list Event) :
  Ordering.scan_with (fun (h : list Event) (e : Event) => Some (e :: h)) s tr = Some (rev tr ++ s).
Proof.
  revert s. induction tr as [|e tr IH]; intro s; cbn; [reflexivity|].
  rewrite IH, <- app_assoc. reflexivity.
Qed.

Ltac wp_step_fault :=
  first [ match goal with
          | |- Ordering.wp _ _ (write_pin _) _ _ _ => apply wp_write_pin_case; intro
          end; cbn beta iota
        | wp_step ].

Ltac wp_run_fault := repeat (first [wp_step_fault | progress wp_unfold]; cbn).

Ltac wp_finish :=
  repeat match goal with
         | H : negb _ = true |- _ => apply negb_true_iff in H
         | H : negb _ = false |- _ => apply negb_false_iff in H
         end;
  cbn in *; try congruence.

(** [stop_irrigation] and [stop_fertigation] always leave
    [is_running == False], whatever path they take, including when the
    cleanup raises (a pump GPIO fault in [stop_pressure_control]): the
    flag is cleared before any cleanup step and nothing sets it again. *)
Theorem stop_clears_running (env : Env) (w : World) :
  is_running (irr (snd (Irrigation.stop_irrigation env w))) = false /\
  is_running (fert (snd (Fertigation.stop_fertigation env w))) = false.
Proof.
  split.
  - apply (wp_any_sound env Irrigation.stop_irrigation (fun _ w' => is_running (irr w') = false)).
    unfold Irrigation.stop_irrigation, Irrigation.stop_cleanup,
      PumpController.stop_pressure_control, Valves.close_zone.
    wp_run_fault. all: wp_finish.
  - apply (wp_any_sound env Fertigation.stop_fertigation (fun _ w' => is_running (fert w') = false)).
    unfold Fertigation.stop_fertigation, Fertigation.stop_cleanup, Fertigation.stop_all_pumps,
      Fertigation.close_all_tank, Fertigation.close_tank, Fertigation.read_tank_level,
      Fertigation.log_operation, Fertigation.clear_running, Fertigation.get_fert,
      Fertigation.put_fert, PumpController.stop_pressure_control, Valves.close_zone.
    wp_run_fault. all: wp_finish.
Qed.

(** [stop_irrigation] on a running cycle whose zone is a nonzero id,
    with no pump fault: it returns success, clears the cycle state, and
    its last two operation logs are [COMPLETED] for the zone then
    [STOPPED] for [current_zone], which [_stop_irrigation] has already
    reset to [None]. *)
Theorem stop_irrigation_logs_stopped_without_zone (z : Z) (env : Env) (w : World)
    (Hr : is_running (irr w) = true) (Hz : current_zone (irr w) = Some z) (Hz0 : z <> 0%Z)
    (Hf : hw_fault env (GpioPump IrrigationPump) (tick w) = false) :
  fst (Irrigation.stop_irrigation env w) = Ok Irrigation.IrrigationStopped /\
  irr (snd (Irrigation.stop_irrigation env w))
    = mkCycleState false None (start_time (irr w)) (threads (irr w)) /\
  exists tr, trace (snd (Irrigation.stop_irrigation env w)) =
    trace w ++ tr ++ [EOpLog IRRIGATION (Some z) COMPLETED; EOpLog IRRIGATION None STOPPED].
Proof.
  assert (H : Ordering.wp (fun (h : list Event) (e : Event) => Some (e :: h)) env
      Irrigation.stop_irrigation
      (fun r w' h => r = Ok Irrigation.IrrigationStopped /\
         irr w' = mkCycleState false None (start_time (irr w)) (threads (irr w)) /\
         exists rest, h = EOpLog IRRIGATION None STOPPED :: EOpLog IRRIGATION (Some z) COMPLETED :: rest)
      w []).
  { apply Z.eqb_neq in Hz0.
    destruct w as [[run cz st th] f pc pu vs vz to tr ck tk]; cbn in Hr, Hz, Hf |- *.
    subst run cz.
    unfold Irrigation.stop_irrigation, Irrigation.stop_cleanup,
      PumpController.stop_pressure_control, Valves.close_zone.
    wp_run_fault. all: wp_finish.
    all: split; [reflexivity|]; split; [reflexivity|]; eexists; reflexivity. }
  destruct H as (tr & h & Ht & Hs & Hres & Hirr & rest & ->).
  rewrite scan_hist, app_nil_r in Hs. injection Hs as Hs.
  split; [exact Hres|]. split; [exact Hirr|].
  exists (rev rest). rewrite Ht, <- (rev_involutive tr), Hs. cbn.
  rewrite <- !app_assoc. reflexivity.
Qed.

Lemma stop_irrigation_logs_stopped_without_zone_witness :
  let w := mkWorld (mkCycleState true (Some 1%Z) (Some 0) 1) Samples.idle
             (fun _ => mkPumpCtl 200 0 true None) (fun _ => mkPump true 200)
             [(1%Z, true)] (Some 1%Z) (fun _ => false) [] 1000 0 in
  is_running (irr w) = true /\ current_zone (irr w) = Some 1%Z /\ (1 <> 0)%Z /\
  hw_fault Samples.env_zone0 (GpioPump IrrigationPump) (tick w) = false /\
  (fst (Irrigation.stop_irrigation Samples.env_zone0 w) = Ok Irrigation.IrrigationStopped /\
   irr (snd (Irrigation.stop_irrigation Samples.env_zone0 w))
     = mkCycleState false None (start_time (irr w)) (threads (irr w)) /\
   exists tr, trace (snd (Irrigation.stop_irrigation Samples.env_zone0 w)) =
     trace w ++ tr ++ [EOpLog IRRIGATION (Some 1%Z) COMPLETED; EOpLog IRRIGATION None STOPPED]).
Proof.
  intro w. split; [reflexivity|]. split; [reflexivity|]. split; [lia|]. split; [reflexivity|].
  apply stop_irrigation_logs_stopped_without_zone; [reflexivity|reflexivity|lia|reflexivity].
Defined.

(** [start_irrigation] never touches an actuator or the other
    controllers: valve states, the current zone of the valve controller,
    the pumps, the pump controller and the tank valves are unchanged on
    every path, including when a sensor read raises; its own cycle state
    changes only when it returns success, to a running cycle of the
    requested zone started now. *)
Theorem start_irrigation_frame (zone_id : Z) (zc : ZoneConfig) (env : Env) (w : World) :
  let r := fst (Irrigation.start_irrigation zone_id zc env w) in
  let w' := snd (Irrigation.start_irrigation zone_id zc env w) in
  valve_states w' = valve_states w /\ valve_current_zone w' = valve_current_zone w /\
  pumps w' = pumps w /\ pctl w' = pctl w /\ tank_open w' = tank_open w /\ fert w' = fert w /\
  irr w' = match r with
           | Ok (Irrigation.Started _ _ _) =>
               mkCycleState true (Some zone_id) (Some (clock w)) (S (threads (irr w)))
           | _ => irr w
           end.
Proof.
  apply (wp_any_sound env (Irrigation.start_irrigation zone_id zc)
    (fun r w' =>
       valve_states w' = valve_states w /\ valve_current_zone w' = valve_current_zone w /\
       pumps w' = pumps w /\ pctl w' = pctl w /\ tank_open w' = tank_open w /\ fert w' = fert w /\
       irr w' = match r with
                | Ok (Irrigation.Started _ _ _) =>
                    mkCycleState true (Some zone_id) (Some (clock w)) (S (threads (irr w)))
                | _ => irr w
                end)).
  unfold Irrigation.start_irrigation. wp_run_fault. all: wp_finish.
  all: repeat split; reflexivity.
Qed.

(** [_irrigation_cycle] with a zone config lacking one of the keys
    ['altitude'], ['slope'], ['base_pressure']: the [KeyError] is caught
    by the cycle's handler before any valve or pump command; the cycle
    logs [STARTED], a system [ERROR] and [FAILED], and clears its
    running state. *)
Theorem irrigation_cycle_missing_config_key (z : Z) (zc : ZoneConfig) (m : Q)
    (env : Env) (w : World)
    (Hk : zc_altitude zc = None \/ zc_slope zc = None \/ zc_base_pressure zc = None) :
  let w' := snd (Irrigation.irrigation_cycle z zc m env w) in
  fst (Irrigation.irrigation_cycle z zc m env w) = Ok tt /\
  trace w' = trace w ++ [EOpLog IRRIGATION (Some z) STARTED; ESysLog ERROR;
                         EOpLog IRRIGATION (Some z) FAILED] /\
  irr w' = mkCycleState false None (start_time (irr w)) (threads (irr w)) /\
  valve_states w' = valve_states w /\ valve_current_zone w' = valve_current_zone w /\
  pumps w' = pumps w /\ pctl w' = pctl w.
Proof.
  unfold Irrigation.irrigation_cycle, Irrigation.log_operation, Irrigation.log_system,
    Irrigation.clear_running, Irrigation.get_irr, Irrigation.put_irr, key.
  repeat progress unfold_monad. cbn.
  destruct (zc_altitude zc) as [a|]; cbn;
    [destruct (zc_slope zc) as [s|]; cbn;
     [destruct (zc_base_pressure zc) as [b|]; cbn|]|].
  all: try (exfalso; destruct Hk as [H|[H|H]]; discriminate).
  all: rewrite <- ?app_assoc; repeat split; reflexivity.
Qed.

Lemma irrigation_cycle_missing_config_key_witness :
  let zc := mkZoneConfig None (Some 0) (Some 200) in
  (zc_altitude zc = None \/ zc_slope zc = None \/ zc_base_pressure zc = None) /\
  (let w' := snd (Irrigation.irrigation_cycle 1 zc 20 Samples.env_zone0 Samples.world0) in
   fst (Irrigation.irrigation_cycle 1 zc 20 Samples.env_zone0 Samples.world0) = Ok tt /\
   trace w' = trace Samples.world0 ++ [EOpLog IRRIGATION (Some 1%Z) STARTED; ESysLog ERROR;
                                       EOpLog IRRIGATION (Some 1%Z) FAILED] /\
   irr w' = mkCycleState false None (start_time (irr Samples.world0)) (threads (irr Samples.world0)) /\
   valve_states w' = valve_states Samples.world0 /\
   valve_current_zone w' = valve_current_zone Samples.world0 /\
   pumps w' = pumps Samples.world0 /\ pctl w' = pctl Samples.world0).
Proof.
  intro zc. split; [left; reflexivity|].
  apply irrigation_cycle_missing_config_key. left. reflexivity.
Defined.

(** The periodic soil-moisture check of the cycle loop never raises (a
    failing read is logged and ignored), never touches an actuator, and
    ends the loop exactly when [MOISTURE_CHECK_INTERVAL_SEC] has elapsed
    since the last check and the reading is at least
    [ADEQUATE_SOIL_MOISTURE_PERCENT]. *)
Theorem moisture_check_outcome (sensor : nat -> option Q) (last : Q) (env : Env) (w : World) :
  let r := fst (Irrigation.moisture_check sensor last env w) in
  let w' := snd (Irrigation.moisture_check sensor last env w) in
  (r = Ok Irrigation.Break \/ exists t, r = Ok (Irrigation.Continue t)) /\
  (r = Ok Irrigation.Break <->
     Qle_bool (MOISTURE_CHECK_INTERVAL_SEC (cfg env)) (clock w - last) &&
     match sensor (tick w) with
     | Some m => Qle_bool (ADEQUATE_SOIL_MOISTURE_PERCENT (cfg env)) m
     | None => false
     end = true) /\
  valve_states w' = valve_states w /\ pumps w' = pumps w /\ pctl w' = pctl w /\ irr w' = irr w.
Proof.
  apply (wp_any_sound env (Irrigation.moisture_check sensor last)
    (fun r w' =>
       (r = Ok Irrigation.Break \/ exists t, r = Ok (Irrigation.Continue t)) /\
       (r = Ok Irrigation.Break <->
          Qle_bool (MOISTURE_CHECK_INTERVAL_SEC (cfg env)) (clock w - last) &&
          match sensor (tick w) with
          | Some m => Qle_bool (ADEQUATE_SOIL_MOISTURE_PERCENT (cfg env)) m
          | None => false
          end = true) /\
       valve_states w' = valve_states w /\ pumps w' = pumps w /\ pctl w' = pctl w /\
       irr w' = irr w)).
  unfold Irrigation.moisture_check. wp_run_fault. all: wp_finish.
  all: repeat match goal with H : ?x = _ |- context [?x] =>
         tryif is_var x then fail else rewrite H end; cbn.
  all: split; [eauto|]; split; [split; intro; congruence|]; repeat split; reflexivity.
Qed.

(** [_fertigation_cycle]'s [except] branch and [_stop_fertigation] when
    the tank inlet's GPIO write fails: [close_all()] raises out of the
    cleanup before [close_zone] runs, so the zone valves and the valve
    controller's current zone are untouched and the fertigation state is
    not cleared ([is_running] and [current_zone] keep their values). *)
Theorem fertigation_cleanup_tank_fault (z : Z) (env : Env) (w : World)
    (Hf : hw_fault env (GpioTank Inlet) (tick w) = true) :
  fst (Fertigation.failure_cleanup z env w) = Raise (GpioError (GpioTank Inlet)) /\
  valve_states (snd (Fertigation.failure_cleanup z env w)) = valve_states w /\
  valve_current_zone (snd (Fertigation.failure_cleanup z env w)) = valve_current_zone w /\
  fert (snd (Fertigation.failure_cleanup z env w)) = fert w /\
  fst (Fertigation.stop_cleanup z env w) = Raise (GpioError (GpioTank Inlet)) /\
  valve_states (snd (Fertigation.stop_cleanup z env w)) = valve_states w /\
  valve_current_zone (snd (Fertigation.stop_cleanup z env w)) = valve_current_zone w /\
  fert (snd (Fertigation.stop_cleanup z env w)) = fert w.
Proof.
  assert (H1 : fst (Fertigation.failure_cleanup z env w) = Raise (GpioError (GpioTank Inlet)) /\
     valve_states (snd (Fertigation.failure_cleanup z env w)) = valve_states w /\
     valve_current_zone (snd (Fertigation.failure_cleanup z env w)) = valve_current_zone w /\
     fert (snd (Fertigation.failure_cleanup z env w)) = fert w).
  { apply (wp_any_sound env (Fertigation.failure_cleanup z)
      (fun r w' => r = Raise (GpioError (GpioTank Inlet)) /\ valve_states w' = valve_states w /\
         valve_current_zone w' = valve_current_zone w /\ fert w' = fert w)).
    unfold Fertigation.failure_cleanup, Fertigation.stop_all_pumps,
      Fertigation.close_all_tank, Fertigation.close_tank, Fertigation.log_operation,
      Fertigation.log_system, PumpController.stop_pressure_control.
    wp_run_fault. all: wp_finish. all: auto. }
  assert (H2 : fst (Fertigation.stop_cleanup z env w) = Raise (GpioError (GpioTank Inlet)) /\
     valve_states (snd (Fertigation.stop_cleanup z env w)) = valve_states w /\
     valve_current_zone (snd (Fertigation.stop_cleanup z env w)) = valve_current_zone w /\
     fert (snd (Fertigation.stop_cleanup z env w)) = fert w).
  { apply (wp_any_sound env (Fertigation.stop_cleanup z)
      (fun r w' => r = Raise (GpioError (GpioTank Inlet)) /\ valve_states w' = valve_states w /\
         valve_current_zone w' = valve_current_zone w /\ fert w' = fert w)).
    unfold Fertigation.stop_cleanup, Fertigation.stop_all_pumps,
      Fertigation.close_all_tank, Fertigation.close_tank, PumpController.stop_pressure_control.
    wp_run_fault. all: wp_finish. all: auto. }
  destruct H1 as (? & ? & ? & ?), H2 as (? & ? & ? & ?). auto 10.
Qed.

Lemma fertigation_cleanup_tank_fault_witness :
  let env := Samples.env_with (fun op _ => match op with GpioTank Inlet => true | _ => false end) [] in
  hw_fault env (GpioTank Inlet) (tick Samples.world0) = true /\
  (fst (Fertigation.failure_cleanup 1 env Samples.world0) = Raise (GpioError (GpioTank Inlet)) /\
   valve_states (snd (Fertigation.failure_cleanup 1 env Samples.world0)) = valve_states Samples.world0 /\
   valve_current_zone (snd (Fertigation.failure_cleanup 1 env Samples.world0))
     = valve_current_zone Samples.world0 /\
   fert (snd (Fertigation.failure_cleanup 1 env Samples.world0)) = fert Samples.world0 /\
   fst (Fertigation.stop_cleanup 1 env Samples.world0) = Raise (GpioError (GpioTank Inlet)) /\
   valve_states (snd (Fertigation.stop_cleanup 1 env Samples.world0)) = valve_states Samples.world0 /\
   valve_current_zone (snd (Fertigation.stop_cleanup 1 env Samples.world0))
     = valve_current_zone Samples.world0 /\
   fert (snd (Fertigation.stop_cleanup 1 env Samples.world0)) = fert Samples.world0).
Proof.
  intro env. split; [reflexivity|]. apply fertigation_cleanup_tank_fault. reflexivity.
Defined.

(** [start_fertigation]: while a cycle runs it answers "already in
    progress" with no change; with the weather check enabled, a reading of
    exactly ['rainy'] is the only rejection, again with no change; a
    failed weather read is logged as a [WARNING] and fertigation starts
    anyway (fail-open). A start marks the cycle running on the zone, now,
    and touches no actuator. *)
Theorem start_fertigation_outcome (z : Z) (env : Env) (w : World) :
  let r := fst (Fertigation.start_fertigation z env w) in
  let w' := snd (Fertigation.start_fertigation z env w) in
  if is_running (fert w) then
    r = Ok (Fertigation.AlreadyRunning (current_zone (fert w))) /\ w' = w
  else if fert_check_weather env &&
          match weather_reading env (tick w) with
          | Some c => String.eqb c "rainy"
          | None => false
          end
  then r = Ok (Fertigation.WeatherNotSuitable "rainy") /\ w' = w
  else
    r = Ok (Fertigation.Started z) /\
    fert w' = mkCycleState true (Some z) (Some (clock w)) (S (threads (fert w))) /\
    trace w' = trace w ++
      (if fert_check_weather env &&
          match weather_reading env (tick w) with Some _ => false | None => true end
       then [ESysLog WARNING] else []) /\
    irr w' = irr w /\ valve_states w' = valve_states w /\ pumps w' = pumps w /\
    pctl w' = pctl w /\ tank_open w' = tank_open w.
Proof.
  unfold Fertigation.start_fertigation, Fertigation.get_fert, Fertigation.put_fert,
    Fertigation.log_system, Irrigation.read_weather.
  repeat progress unfold_monad. cbn.
  destruct (is_running (fert w)); cbn; [split; reflexivity|].
  destruct (fert_check_weather env); cbn.
  - destruct (weather_reading env (tick w)) as [c|]; cbn.
    + destruct (String.eqb_spec c "rainy") as [->|Hc]; cbn; [split; reflexivity|].
      rewrite app_nil_r. repeat split; reflexivity.
    + repeat split; reflexivity.
  - rewrite app_nil_r. repeat split; reflexivity.
Qed.



(** Cleanup ordering: [_stop_irrigation] stops the irrigation pump before
    it closes the zone valve, from any scanner state; [_stop_fertigation]
    and the failure handler of [_fertigation_cycle] stop both pumps before
    they close any zone or tank valve. *)
Theorem cleanup_stops_pumps_before_closing (env : Env) (z z0 : Z) (m : Q) (w : World)
    (s : bool * bool) :
  Ordering.wp (Ordering.step z) env (Irrigation.stop_cleanup z0 m) (fun _ _ _ => True) w s /\
  Ordering.wp Ordering.fstep env (Fertigation.stop_cleanup z0) (fun _ _ _ => True) w
    (fert_has_fertilizer_pump env, fert_has_irrigation_pump env) /\
  Ordering.wp Ordering.fstep env (Fertigation.failure_cleanup z0) (fun _ _ _ => True) w
    (fert_has_fertilizer_pump env, fert_has_irrigation_pump env).
Proof.
  split; [apply stop_cleanup_ordered|].
  split; [apply fert_stop_cleanup_ordered | apply fert_failure_cleanup_ordered].
Qed.
